(** * E-commerce backend: pricing, coupons, orders

    A shallow embedding of the pricing and order logic of the backend:
    - [models/Product.js], [models/Coupon.js], [models/Order.js]
    - [controllers/cartController.js], [controllers/couponController.js]
    - the order controller ([createOrder], [updateOrderStatus], [cancelOrder]).

    Conventions of the embedding.
    - Money (JS [Number] holding a price or an amount) is an exact rational
      [Q]; counters (stock, soldCount, quantity, usedCount, usageLimit) are
      integers [Z]; a [Date] is its epoch time in [Z].
    - A field that may be [null]/[undefined] is an [option].
    - The product, order and cart collections are finite maps from the
      document id to the document ([gmap string _]); [findById] is the
      lookup, [save] the insert. The coupon collection is only read through
      [find], so it is the list of its documents.
    - A document read back from a collection has the fields it was saved
      with, except that a nested path (the [variant] of a stored cart line
      or order line) always reads back as an object: stored as [null], it is
      an object without [sku]. [populate] with a field list loads the
      referenced document with the listed paths only; the others read as
      [undefined].
    - In [save], validation runs before the [pre('save')] hooks of the
      schema. The documents of a collection satisfy their schema; the
      validation is modelled where a handler writes a value the schema can
      reject.
    - A handler is a function from the request and the collections to the
      collections it leaves behind together with its response; an early
      [return res.status(..)] keeps every [save] made before it. *)

From Stdlib Require Import ZArith QArith Qminmax Qround Lqa Lia Bool.
From stdpp Require Import base gmap strings list option.

Local Open Scope string_scope.
Local Open Scope Z_scope.

(** ** JavaScript values *)

Definition Date := Z.

(** Truthiness of a number: [0] is falsy. *)
Definition truthyQ (q : Q) : bool := negb (Qeq_bool q 0).

(** Truthiness of a possibly missing number. *)
Definition truthyOQ (o : option Q) : bool :=
  match o with
  | Some q => truthyQ q
  | None => false
  end.

(** Truthiness of a possibly missing string: the empty string is falsy. *)
Definition truthyOS (o : option string) : bool :=
  match o with
  | Some s => negb (String.eqb s "")
  | None => false
  end.

(** [a < b] and [a > b] on amounts. *)
Definition Qltb (a b : Q) : bool := negb (Qle_bool b a).
Definition Qgtb (a b : Q) : bool := Qltb b a.

(** ** Responses *)

(** The failures a handler answers with; [http_status] is the status code
    of the response. *)
Inductive Error :=
| NoItems                                   (* 'No items in order' *)
| ProductNotFound (id : string)             (* `Product ${id} not found` *)
| VariantNotFound (sku : string)            (* `Variant ${sku} not found` *)
| InsufficientStock (name : string) (available : Z)
| BelowMinimumPurchase (minPurchase : Q)    (* thrown by calculateDiscount *)
| CouponNotValid                            (* 'Coupon is not valid' *)
| InvalidTransition                         (* 'Order cannot be cancelled at this stage' *)
| OrderNotFound
| SaveFailed.                               (* the catch block: status 500 *)

Definition http_status (e : Error) : Z :=
  match e with
  | NoItems => 400
  | ProductNotFound _ => 404
  | VariantNotFound _ => 400
  | InsufficientStock _ _ => 400
  | BelowMinimumPurchase _ => 400
  | CouponNotValid => 400
  | InvalidTransition => 400
  | OrderNotFound => 404
  | SaveFailed => 500
  end.

(** What the environment supplies to a handler: the clock, the
    authenticated user, and the id a document made by [Order.create]
    gets. *)
Record Env := {
  now : Date;
  user : string;
  newId : string
}.

(** ** models/Coupon.js *)

Inductive DiscountType := percentage | fixed.

Module Coupon.

Record t := {
  code : string;
  discountType : DiscountType;
  discountValue : Q;
  minPurchase : Q;
  maxDiscount : option Q;
  startDate : Date;
  endDate : Date;
  usageLimit : option Z;
  usedCount : Z;
  isActive : bool
}.

(** The constraints of the schema ([min: 0] on discountValue and on
    minPurchase), checked by the validators whenever a coupon is written. *)
Definition schema_valid (c : t) : Prop :=
  (0 <= discountValue c)%Q /\ (0 <= minPurchase c)%Q.

(** virtual [isActiveNow] *)
Definition isActiveNow (now : Date) (c : t) : bool :=
  isActive c
  && (startDate c <=? now)
  && (now <=? endDate c)
  && match usageLimit c with
     | None => true
     | Some l => usedCount c <? l
     end.

(** method [isValid] *)
Definition isValid (now : Date) (c : t) : bool := isActiveNow now c.

(** The percentage branch of [calculateDiscount], before the final
    [Math.min]. *)
Definition percentageDiscount (c : t) (totalAmount : Q) : Q :=
  let discount := (totalAmount * discountValue c / 100)%Q in
  match maxDiscount c with
  | Some m => if truthyQ m && Qgtb discount m then m else discount
  | None => discount
  end.

(** method [calculateDiscount] *)
Definition calculateDiscount (now : Date) (c : t) (totalAmount : Q) : Error + Q :=
  if Qltb totalAmount (minPurchase c) then inl (BelowMinimumPurchase (minPurchase c))
  else if negb (isValid now c) then inl CouponNotValid
  else
    let discount :=
      match discountType c with
      | percentage => percentageDiscount c totalAmount
      | fixed => discountValue c
      end in
    inr (Qmin discount totalAmount).

(** method [incrementUsage] *)
Definition incrementUsage (c : t) : t :=
  {| code := code c; discountType := discountType c;
     discountValue := discountValue c; minPurchase := minPurchase c;
     maxDiscount := maxDiscount c; startDate := startDate c;
     endDate := endDate c; usageLimit := usageLimit c;
     usedCount := usedCount c + 1; isActive := isActive c |}.

End Coupon.

(** ** models/Product.js *)

Module Variant.

Record t := {
  sku : string;
  price : Q;
  stock : Z
}.

Definition set_stock (s : Z) (v : t) : t :=
  {| sku := sku v; price := price v; stock := s |}.

End Variant.

Module Product.

Record t := {
  name : string;
  sku : string;
  price : Q;
  stock : Z;
  soldCount : Z;
  isActive : bool;
  isOnSale : bool;
  salePrice : option Q;
  saleStart : option Date;
  saleEnd : option Date;
  variants : list Variant.t
}.

Definition set_stock (s : Z) (p : t) : t :=
  {| name := name p; sku := sku p; price := price p; stock := s;
     soldCount := soldCount p; isActive := isActive p;
     isOnSale := isOnSale p; salePrice := salePrice p;
     saleStart := saleStart p; saleEnd := saleEnd p;
     variants := variants p |}.

Definition set_soldCount (n : Z) (p : t) : t :=
  {| name := name p; sku := sku p; price := price p; stock := stock p;
     soldCount := n; isActive := isActive p;
     isOnSale := isOnSale p; salePrice := salePrice p;
     saleStart := saleStart p; saleEnd := saleEnd p;
     variants := variants p |}.

Definition set_variants (vs : list Variant.t) (p : t) : t :=
  {| name := name p; sku := sku p; price := price p; stock := stock p;
     soldCount := soldCount p; isActive := isActive p;
     isOnSale := isOnSale p; salePrice := salePrice p;
     saleStart := saleStart p; saleEnd := saleEnd p;
     variants := vs |}.

(** virtual [currentPrice]: [isOnSale && salePrice ? salePrice : price] *)
Definition currentPrice (p : t) : Q :=
  match isOnSale p, salePrice p with
  | true, Some s => if truthyQ s then s else price p
  | _, _ => price p
  end.

(** method [isOnSaleNow] *)
Definition isOnSaleNow (now : Date) (p : t) : bool :=
  if negb (isOnSale p) then false
  else
    match saleStart p, saleEnd p with
    | None, None => true
    | start, stop =>
        if match start with Some s => now <? s | None => false end then false
        else if match stop with Some e => e <? now | None => false end then false
        else true
    end.

(** [variants.find(v => v.sku === sku)] *)
Definition findVariant (sku : string) (p : t) : option Variant.t :=
  List.find (fun v => String.eqb (Variant.sku v) sku) (variants p).

(** [const variant = variants.find(v => v.sku === sku);
     if (variant) variant.stock += d]: the first variant with that sku is
    updated in place, the others are left as they are. *)
Fixpoint adjustVariantStock (sku : string) (d : Z) (vs : list Variant.t)
  : list Variant.t :=
  match vs with
  | [] => []
  | v :: vs' =>
      if String.eqb (Variant.sku v) sku
      then Variant.set_stock (Variant.stock v + d) v :: vs'
      else v :: adjustVariantStock sku d vs'
  end.

End Product.

(** The selector a client sends to pick a variant. *)
Module VariantSel.

Record t := {
  color : option string;
  size : option string;
  material : option string;
  sku : string
}.

(** [{ ...variant, sku }] *)
Definition with_sku (s : string) (v : t) : t :=
  {| color := color v; size := size v; material := material v; sku := s |}.

End VariantSel.

(** ** models/Order.js *)

(** A line of the request body of [createOrder]. *)
Module Item.

Record t := {
  product : string;
  variant : option VariantSel.t;
  quantity : Z
}.

End Item.

(** [orderItemSchema], without the image. *)
Module OrderItem.

Record t := {
  product : string;
  name : string;
  price : Q;
  quantity : Z;
  variant : option VariantSel.t;
  sku : string;
  total : Q
}.

End OrderItem.

Module StatusRecord.

Record t := {
  status : string;
  timestamp : Date;
  note : option string
}.

End StatusRecord.

Module CouponSnapshot.

Record t := {
  code : string;
  discount : Q
}.

End CouponSnapshot.

(** The object [createOrder] hands to [Order.create], without the shipping
    sub-record. [orderNumber] is [None] when the object has no such key. *)
Module NewOrder.

Record t := {
  orderNumber : option string;
  user : string;
  items : list OrderItem.t;
  itemsPrice : Q;
  shippingPrice : Q;
  taxPrice : Q;
  totalPrice : Q;
  coupon : option CouponSnapshot.t;
  paymentMethod : string;
  paymentStatus : string
}.

End NewOrder.

Module Order.

Record t := {
  orderNumber : string;
  user : string;
  items : list OrderItem.t;
  itemsPrice : Q;
  taxPrice : Q;
  shippingPrice : Q;
  totalPrice : Q;
  coupon : option CouponSnapshot.t;
  paymentMethod : string;
  paymentStatus : string;
  trackingNumber : option string;
  carrier : option string;
  deliveredAt : option Date;
  orderStatus : string;
  statusHistory : list StatusRecord.t;
  cancelledAt : option Date;
  cancelledReason : option string
}.

(** The [enum] of [orderStatus]. *)
Definition statuses : list string :=
  ["pending"; "confirmed"; "processing"; "shipped"; "delivered";
   "cancelled"; "refunded"].

Definition set_orderStatus (s : string) (o : t) : t :=
  {| orderNumber := orderNumber o; user := user o; items := items o;
     itemsPrice := itemsPrice o; taxPrice := taxPrice o;
     shippingPrice := shippingPrice o; totalPrice := totalPrice o;
     coupon := coupon o; paymentMethod := paymentMethod o;
     paymentStatus := paymentStatus o; trackingNumber := trackingNumber o;
     carrier := carrier o; deliveredAt := deliveredAt o;
     orderStatus := s; statusHistory := statusHistory o;
     cancelledAt := cancelledAt o; cancelledReason := cancelledReason o |}.

Definition set_statusHistory (h : list StatusRecord.t) (o : t) : t :=
  {| orderNumber := orderNumber o; user := user o; items := items o;
     itemsPrice := itemsPrice o; taxPrice := taxPrice o;
     shippingPrice := shippingPrice o; totalPrice := totalPrice o;
     coupon := coupon o; paymentMethod := paymentMethod o;
     paymentStatus := paymentStatus o; trackingNumber := trackingNumber o;
     carrier := carrier o; deliveredAt := deliveredAt o;
     orderStatus := orderStatus o; statusHistory := h;
     cancelledAt := cancelledAt o; cancelledReason := cancelledReason o |}.

Definition set_shipping (tn cr : option string) (d : option Date) (o : t) : t :=
  {| orderNumber := orderNumber o; user := user o; items := items o;
     itemsPrice := itemsPrice o; taxPrice := taxPrice o;
     shippingPrice := shippingPrice o; totalPrice := totalPrice o;
     coupon := coupon o; paymentMethod := paymentMethod o;
     paymentStatus := paymentStatus o; trackingNumber := tn;
     carrier := cr; deliveredAt := d;
     orderStatus := orderStatus o; statusHistory := statusHistory o;
     cancelledAt := cancelledAt o; cancelledReason := cancelledReason o |}.

Definition set_cancelled (at_ : option Date) (reason : option string) (o : t) : t :=
  {| orderNumber := orderNumber o; user := user o; items := items o;
     itemsPrice := itemsPrice o; taxPrice := taxPrice o;
     shippingPrice := shippingPrice o; totalPrice := totalPrice o;
     coupon := coupon o; paymentMethod := paymentMethod o;
     paymentStatus := paymentStatus o; trackingNumber := trackingNumber o;
     carrier := carrier o; deliveredAt := deliveredAt o;
     orderStatus := orderStatus o; statusHistory := statusHistory o;
     cancelledAt := at_; cancelledReason := reason |}.

(** The [pre('save')] hook on a document that already has its order
    number. [loaded] is the [orderStatus] the document was loaded with:
    [isModified('orderStatus')] holds when the current one differs from it.
    The pushed record gets its timestamp from the schema default
    [Date.now]. *)
Definition preSave (now : Date) (loaded : string) (o : t) : t :=
  if negb (String.eqb (orderStatus o) loaded) then
    set_statusHistory
      (statusHistory o ++
       [ {| StatusRecord.status := orderStatus o;
            StatusRecord.timestamp := now;
            StatusRecord.note :=
              if String.eqb (orderStatus o) "cancelled"
              then cancelledReason o else Some "Status updated" |} ])
      o
  else o.

(** [save()]: the validators reject an [orderStatus] outside the enum (the
    handler then answers from its catch block and nothing is written);
    otherwise the hook runs and the document is stored. *)
Definition save (now : Date) (loaded : string) (o : t) : option t :=
  if existsb (String.eqb (orderStatus o)) statuses
  then Some (preSave now loaded o)
  else None.

(** method [cancelOrder], up to its [save] *)
Definition cancelOrder (now : Date) (reason : option string) (o : t) : t :=
  set_cancelled (Some now) reason (set_orderStatus "cancelled" o).

(** [Order.create(doc)]: the document gets the schema defaults
    ([orderStatus] pending, an empty history) and is saved. [orderNumber] is
    [required], and validation comes before the [pre('save')] hook that
    would generate one, so a document without an order number is rejected
    and nothing is stored. The other validators are not modelled. *)
Definition create (env : Env) (doc : NewOrder.t) (orders : gmap string t)
  : gmap string t * option t :=
  match NewOrder.orderNumber doc with
  | None => (orders, None)
  | Some number =>
      let order :=
        {| orderNumber := number;
           user := NewOrder.user doc;
           items := NewOrder.items doc;
           itemsPrice := NewOrder.itemsPrice doc;
           taxPrice := NewOrder.taxPrice doc;
           shippingPrice := NewOrder.shippingPrice doc;
           totalPrice := NewOrder.totalPrice doc;
           coupon := NewOrder.coupon doc;
           paymentMethod := NewOrder.paymentMethod doc;
           paymentStatus := NewOrder.paymentStatus doc;
           trackingNumber := None;
           carrier := None;
           deliveredAt := None;
           orderStatus := "pending";
           statusHistory := [];
           cancelledAt := None;
           cancelledReason := None |} in
      match save (now env) "pending" order with
      | Some order' => (<[newId env := order']> orders, Some order')
      | None => (orders, None)
      end
  end.

End Order.

(** ** The order controller *)

(** The product and order collections. *)
Record DB := {
  products : gmap string Product.t;
  orders : gmap string Order.t
}.

Module CreateOrderReq.

(** The request body of [createOrder], without the shipping address. *)
Record t := {
  items : list Item.t;
  paymentMethod : string;
  couponCode : option string
}.

End CreateOrderReq.

(** [createOrderValidation] on the modelled part of the body: at least one
    item, every quantity an integer that is at least 1, a known payment
    method. The route runs it before [createOrder]. *)
Definition createOrderValidation (req : CreateOrderReq.t) : bool :=
  (0 <? Z.of_nat (length (CreateOrderReq.items req)))
  && forallb (fun i => 1 <=? Item.quantity i) (CreateOrderReq.items req)
  && existsb (String.eqb (CreateOrderReq.paymentMethod req))
       ["stripe"; "momo"; "itecpay"; "cod"].

(** The locals [availableStock], [variantPrice] and [variantSku] of the loop
    body of [createOrder], after the variant block. *)
Definition resolveOrderLine (product : Product.t) (item : Item.t)
  : Error + (Z * Q * string) :=
  let availableStock := Product.stock product in
  let variantPrice :=
    if truthyQ (Product.currentPrice product)
    then Product.currentPrice product else Product.price product in
  let variantSku := Product.sku product in
  match Item.variant item with
  | Some sel =>
      if (0 <? Z.of_nat (length (Product.variants product))) then
        match Product.findVariant (VariantSel.sku sel) product with
        | None => inl (VariantNotFound (VariantSel.sku sel))
        | Some variant =>
            inr (Variant.stock variant, Variant.price variant, Variant.sku variant)
        end
      else inr (availableStock, variantPrice, variantSku)
  | None => inr (availableStock, variantPrice, variantSku)
  end.

(** The "Reduce stock" and "Update sold count" steps of the loop body. *)
Definition reduceStock (product : Product.t) (item : Item.t) : Product.t :=
  let product1 :=
    match Item.variant item with
    | Some sel =>
        Product.set_variants
          (Product.adjustVariantStock (VariantSel.sku sel) (- Item.quantity item)
             (Product.variants product))
          product
    | None => Product.set_stock (Product.stock product - Item.quantity item) product
    end in
  Product.set_soldCount (Product.soldCount product1 + Item.quantity item) product1.

(** One iteration of the loop of [createOrder]: the product collection after
    it, and either the response of an early return or the pushed line. *)
Definition orderLine (ps : gmap string Product.t) (item : Item.t)
  : gmap string Product.t * (Error + OrderItem.t) :=
  match ps !! Item.product item with
  | None => (ps, inl (ProductNotFound (Item.product item)))
  | Some product =>
      if negb (Product.isActive product)
      then (ps, inl (ProductNotFound (Item.product item)))
      else
        match resolveOrderLine product item with
        | inl e => (ps, inl e)
        | inr (availableStock, variantPrice, variantSku) =>
            if availableStock <? Item.quantity item
            then (ps, inl (InsufficientStock (Product.name product) availableStock))
            else
              let price := variantPrice in
              let total := (price * inject_Z (Item.quantity item))%Q in
              (<[Item.product item := reduceStock product item]> ps,
               inr {| OrderItem.product := Item.product item;
                      OrderItem.name := Product.name product;
                      OrderItem.price := price;
                      OrderItem.quantity := Item.quantity item;
                      OrderItem.variant :=
                        match Item.variant item with
                        | Some sel => Some (VariantSel.with_sku variantSku sel)
                        | None => None
                        end;
                      OrderItem.sku := variantSku;
                      OrderItem.total := total |})
        end
  end.

(** The loop [for (const item of items)] with its accumulators
    [orderItems] and [itemsPrice]. *)
Fixpoint processItems (items : list Item.t) (ps : gmap string Product.t)
    (orderItems : list OrderItem.t) (itemsPrice : Q)
  : gmap string Product.t * (Error + (list OrderItem.t * Q)) :=
  match items with
  | [] => (ps, inr (orderItems, itemsPrice))
  | item :: rest =>
      match orderLine ps item with
      | (ps', inl e) => (ps', inl e)
      | (ps', inr line) =>
          processItems rest ps' (orderItems ++ [line])
            (itemsPrice + OrderItem.total line)%Q
      end
  end.

(** [createOrder] from its loop to the call of [Order.create]: the products
    the loop leaves behind, and either the response of an early return or
    the object handed to [Order.create]. That object has no [orderNumber]
    key. *)
Definition prepareOrder (env : Env) (req : CreateOrderReq.t)
    (ps : gmap string Product.t)
  : gmap string Product.t * (Error + NewOrder.t) :=
  match processItems (CreateOrderReq.items req) ps [] 0%Q with
  | (ps', inl e) => (ps', inl e)
  | (ps', inr (orderItems, itemsPrice)) =>
      let shippingPrice := if Qgtb itemsPrice 50 then 0%Q else 10%Q in
      let taxPrice := (itemsPrice * (8 # 100))%Q in
      let totalPrice := (itemsPrice + shippingPrice + taxPrice)%Q in
      let '(totalPrice, coupon) :=
        match CreateOrderReq.couponCode req with
        | Some couponCode =>
            if negb (String.eqb couponCode "") then
              let discount := (itemsPrice * (1 # 10))%Q in
              ((totalPrice - discount)%Q,
               Some {| CouponSnapshot.code := couponCode;
                       CouponSnapshot.discount := discount |})
            else (totalPrice, None)
        | None => (totalPrice, None)
        end in
      (ps',
       inr {| NewOrder.orderNumber := None;
              NewOrder.user := user env;
              NewOrder.items := orderItems;
              NewOrder.itemsPrice := itemsPrice;
              NewOrder.shippingPrice := shippingPrice;
              NewOrder.taxPrice := taxPrice;
              NewOrder.totalPrice := totalPrice;
              NewOrder.coupon := coupon;
              NewOrder.paymentMethod := CreateOrderReq.paymentMethod req;
              NewOrder.paymentStatus := "pending" |})
  end.

(** [createOrder]. When [Order.create] throws, the catch block answers with
    status 500; the products saved by the loop stay as they are. After a
    stored order the handler would go on to the confirmation mail, whose
    template reads [order.shippingAddress.street]: the order has no
    [shippingAddress], the read throws, and the catch block answers with
    status 500 as well. *)
Definition createOrder (env : Env) (req : CreateOrderReq.t) (db : DB)
  : DB * (Error + Order.t) :=
  match CreateOrderReq.items req with
  | [] => (db, inl NoItems)
  | _ =>
      match prepareOrder env req (products db) with
      | (ps, inl e) => ({| products := ps; orders := orders db |}, inl e)
      | (ps, inr doc) =>
          match Order.create env doc (orders db) with
          | (orders', None) =>
              ({| products := ps; orders := orders' |}, inl SaveFailed)
          | (orders', Some _) =>
              ({| products := ps; orders := orders' |}, inl SaveFailed)
          end
      end
  end.

(** The request body of [updateOrderStatus]. *)
Module UpdateStatusReq.

Record t := {
  status : string;
  trackingNumber : option string;
  carrier : option string
}.

End UpdateStatusReq.

(** [updateOrderStatus] *)
Definition updateOrderStatus (env : Env) (id : string) (req : UpdateStatusReq.t)
    (db : DB) : DB * (Error + Order.t) :=
  match orders db !! id with
  | None => (db, inl OrderNotFound)
  | Some order =>
      let status := UpdateStatusReq.status req in
      let order1 := Order.set_orderStatus status order in
      let order2 :=
        Order.set_shipping
          (if truthyOS (UpdateStatusReq.trackingNumber req)
           then UpdateStatusReq.trackingNumber req else Order.trackingNumber order1)
          (if truthyOS (UpdateStatusReq.carrier req)
           then UpdateStatusReq.carrier req else Order.carrier order1)
          (if String.eqb status "delivered"
           then Some (now env) else Order.deliveredAt order1)
          order1 in
      match Order.save (now env) (Order.orderStatus order) order2 with
      | Some order' =>
          ({| products := products db; orders := <[id := order']> (orders db) |},
           inr order')
      | None => (db, inl SaveFailed)
      end
  end.

(** [item.variant.sku] of a stored line: [undefined] for a line stored
    without a variant. *)
Definition storedSku (variant : option VariantSel.t) : option string :=
  VariantSel.sku <$> variant.

(** The stock and sold-count updates of one iteration of the "Restore
    product stock" loop of [cancelOrder]. [item.variant] of a stored line is
    an object, so [if (item.variant)] always takes its first branch: the
    [else] with [product.stock += item.quantity] is never reached. The
    variant is looked up by [v.sku === item.variant.sku]; every variant has
    a sku, so nothing is found for a line stored without a variant. *)
Definition restoreProduct (item : OrderItem.t) (product : Product.t)
  : Product.t :=
  let product1 :=
    match storedSku (OrderItem.variant item) with
    | Some sku =>
        Product.set_variants
          (Product.adjustVariantStock sku
             (OrderItem.quantity item) (Product.variants product))
          product
    | None => product
    end in
  Product.set_soldCount
    (Product.soldCount product1 - OrderItem.quantity item) product1.

(** One iteration of that loop: a product that is gone is skipped. *)
Definition restoreLine (ps : gmap string Product.t) (item : OrderItem.t)
  : gmap string Product.t :=
  match ps !! OrderItem.product item with
  | None => ps
  | Some product => <[OrderItem.product item := restoreProduct item product]> ps
  end.

(** [cancelOrder] (the handler) *)
Definition cancelOrder (env : Env) (id : string) (reason : option string)
    (db : DB) : DB * (Error + unit) :=
  match orders db !! id with
  | None => (db, inl OrderNotFound)
  | Some order =>
      if negb (String.eqb (Order.user order) (user env))
      then (db, inl OrderNotFound)
      else if negb (existsb (String.eqb (Order.orderStatus order))
                      ["pending"; "confirmed"])
      then (db, inl InvalidTransition)
      else
        match Order.save (now env) (Order.orderStatus order)
                (Order.cancelOrder (now env) reason order) with
        | None => (db, inl SaveFailed)
        | Some order' =>
            ({| products := fold_left restoreLine (Order.items order') (products db);
                orders := <[id := order']> (orders db) |},
             inr tt)
        end
  end.

(** ** models/Cart.js and the cart controller *)

Module CartItem.

Record t := {
  product : string;
  quantity : Z;
  variant : option VariantSel.t;
  price : Q;
  total : Q;
  inStock : bool
}.

Definition set_quantity (n : Z) (i : t) : t :=
  {| product := product i; quantity := n; variant := variant i;
     price := price i; total := total i; inStock := inStock i |}.

End CartItem.

Module Cart.

Record t := {
  items : list CartItem.t;
  coupon : option CouponSnapshot.t
}.

End Cart.

Module Summary.

Record t := {
  subtotal : Q;
  shipping : Q;
  tax : Q;
  total : Q;
  totalItems : Z
}.

End Summary.

(** A product as [populate('items.product', fields)] loads it: [isActive],
    [isOnSale] and [salePrice] are [None] when [fields] leaves them out. *)
Module Populated.

Record t := {
  price : Q;
  stock : Z;
  variants : list Variant.t;
  isActive : option bool;
  isOnSale : option bool;
  salePrice : option Q
}.

(** The field list of [getCart]:
    ['name slug price images stock sku variants']. *)
Definition cartFields (p : Product.t) : t :=
  {| price := Product.price p;
     stock := Product.stock p;
     variants := Product.variants p;
     isActive := None;
     isOnSale := None;
     salePrice := None |}.

End Populated.

(** Truthiness of a possibly missing boolean. *)
Definition truthyOB (o : option bool) : bool := default false o.

(** The locals [availableStock] and [currentPrice] of the loop body of
    [getCart]; [product] is the populated product of the item.
    [item.variant] is an object, so the guard of the variant block comes
    down to the product having variants; the variant is looked up by the
    sku the stored line reads back with. *)
Definition resolveCartLine (product : Populated.t) (item : CartItem.t) : Z * Q :=
  let availableStock := Populated.stock product in
  let variantPrice := Populated.price product in
  let '(availableStock, variantPrice) :=
    if (0 <? Z.of_nat (length (Populated.variants product))) then
      match
        List.find
          (fun v => bool_decide (storedSku (CartItem.variant item)
                                 = Some (Variant.sku v)))
          (Populated.variants product)
      with
      | Some variant => (Variant.stock variant, Variant.price variant)
      | None => (availableStock, variantPrice)
      end
    else (availableStock, variantPrice) in
  let currentPrice :=
    if truthyOB (Populated.isOnSale product)
       && truthyOQ (Populated.salePrice product)
    then default variantPrice (Populated.salePrice product)
    else variantPrice in
  (availableStock, currentPrice).

(** The loop of [getCart] with its accumulators [subtotal] and
    [totalItems]; it returns the items as it leaves them. [ps] is the
    product collection the items are populated from. An item whose product
    is gone, or for which [product.isActive] is not truthy, is skipped. *)
Fixpoint cartLoop (ps : gmap string Product.t) (items : list CartItem.t)
    (subtotal : Q) (totalItems : Z) : list CartItem.t * Q * Z :=
  match items with
  | [] => ([], subtotal, totalItems)
  | item :: rest =>
      match Populated.cartFields <$> ps !! CartItem.product item with
      | Some product =>
          if truthyOB (Populated.isActive product) then
            let '(availableStock, currentPrice) := resolveCartLine product item in
            let quantity := Z.min (CartItem.quantity item) availableStock in
            let itemTotal := (currentPrice * inject_Z quantity)%Q in
            let item' :=
              {| CartItem.product := CartItem.product item;
                 CartItem.quantity := CartItem.quantity item;
                 CartItem.variant := CartItem.variant item;
                 CartItem.price := currentPrice;
                 CartItem.total := itemTotal;
                 CartItem.inStock := 0 <? quantity |} in
            let '(rest', s, n) :=
              cartLoop ps rest (subtotal + itemTotal)%Q (totalItems + quantity) in
            (item' :: rest', s, n)
          else
            let '(rest', s, n) := cartLoop ps rest subtotal totalItems in
            (item :: rest', s, n)
      | None =>
          let '(rest', s, n) := cartLoop ps rest subtotal totalItems in
          (item :: rest', s, n)
      end
  end.

(** The [summary] of the response of [getCart], from what the loop has
    accumulated. *)
Definition cartSummary (subtotal : Q) (totalItems : Z) : Summary.t :=
  let shipping := if Qgtb subtotal 50 then 0%Q else 10%Q in
  let tax := (subtotal * (8 # 100))%Q in
  let total := (subtotal + shipping + tax)%Q in
  {| Summary.subtotal := subtotal; Summary.shipping := shipping;
     Summary.tax := tax; Summary.total := total;
     Summary.totalItems := totalItems |}.

(** [getCart]: the cart collection (keyed by its owner) after the handler,
    and the [data] of the response. *)
Definition getCart (env : Env) (ps : gmap string Product.t)
    (carts : gmap string Cart.t)
  : gmap string Cart.t * (list CartItem.t * Summary.t) :=
  let cart :=
    match carts !! user env with
    | Some cart => cart
    | None => {| Cart.items := []; Cart.coupon := None |}
    end in
  let '(items, subtotal, totalItems) := cartLoop ps (Cart.items cart) 0%Q 0 in
  let cart' := {| Cart.items := items; Cart.coupon := Cart.coupon cart |} in
  (<[user env := cart']> carts, (items, cartSummary subtotal totalItems)).

(** The failures of [addToCart]. *)
Inductive CartError :=
| CartProductNotFound                  (* 'Product not found', 404 *)
| SelectedVariantNotFound              (* 'Selected variant not found', 400 *)
| OnlyAvailable (available : Z)        (* `Only ${n} items available in stock` *)
| CannotAddMore (available : Z)        (* `Cannot add more than ${n} items` *)
| CartSaveFailed.                      (* the catch block: status 500 *)

Module AddToCartReq.

Record t := {
  productId : string;
  quantity : option Z;
  variant : option VariantSel.t
}.

End AddToCartReq.

(** [Array.prototype.findIndex] *)
Fixpoint findIndex {A : Type} (f : A -> bool) (l : list A) : option nat :=
  match l with
  | [] => None
  | x :: l' => if f x then Some O else option_map S (findIndex f l')
  end.

(** The locals [availableStock], [variantPrice] and [variantSku] of
    [addToCart] after the variant block. *)
Definition resolveAddToCart (product : Product.t) (variant : option VariantSel.t)
  : CartError + (Z * Q * string) :=
  let availableStock := Product.stock product in
  let variantPrice := Product.price product in
  let variantSku := Product.sku product in
  match variant with
  | Some sel =>
      if (0 <? Z.of_nat (length (Product.variants product))) then
        match Product.findVariant (VariantSel.sku sel) product with
        | None => inl SelectedVariantNotFound
        | Some selectedVariant =>
            inr (Variant.stock selectedVariant, Variant.price selectedVariant,
                 Variant.sku selectedVariant)
        end
      else inr (availableStock, variantPrice, variantSku)
  | None => inr (availableStock, variantPrice, variantSku)
  end.

(** The validators of the cart-line schema that [cart.save()] runs on a
    line: [quantity] at least 1, [price] and [total] not negative. *)
Definition cartItemValid (item : CartItem.t) : bool :=
  (1 <=? CartItem.quantity item)
  && Qle_bool 0 (CartItem.price item)
  && Qle_bool 0 (CartItem.total item).

(** The callback of [findIndex] in [addToCart]. [item.variant] of a stored
    line is an object, so with a variant in the request the skus are
    compared, and without one [!variant && !item.variant] is false. *)
Definition sameCartLine (productId : string) (variant : option VariantSel.t)
    (item : CartItem.t) : bool :=
  if negb (String.eqb (CartItem.product item) productId) then false
  else
    match variant with
    | Some v =>
        bool_decide (storedSku (CartItem.variant item) = Some (VariantSel.sku v))
    | None => false
    end.

(** [addToCart]. The lines already stored satisfy the schema; [cart.save()]
    is modelled on the line the handler writes. When it throws, the catch
    block answers with status 500, and a cart made by [Cart.create] stays
    stored. *)
Definition addToCart (env : Env) (req : AddToCartReq.t)
    (ps : gmap string Product.t) (carts : gmap string Cart.t)
  : gmap string Cart.t * (CartError + Cart.t) :=
  let productId := AddToCartReq.productId req in
  let quantity := default 1 (AddToCartReq.quantity req) in
  let variant := AddToCartReq.variant req in
  match ps !! productId with
  | None => (carts, inl CartProductNotFound)
  | Some product =>
      if negb (Product.isActive product) then (carts, inl CartProductNotFound)
      else
        match resolveAddToCart product variant with
        | inl e => (carts, inl e)
        | inr (availableStock, variantPrice, variantSku) =>
            if availableStock <? quantity
            then (carts, inl (OnlyAvailable availableStock))
            else
              let '(carts, cart) :=
                match carts !! user env with
                | Some cart => (carts, cart)
                | None =>
                    let cart := {| Cart.items := []; Cart.coupon := None |} in
                    (<[user env := cart]> carts, cart)
                end in
              let existingItemIndex :=
                findIndex (sameCartLine productId variant) (Cart.items cart) in
              match existingItemIndex with
              | Some i =>
                  match Cart.items cart !! i with
                  | Some existing =>
                      let newQuantity := CartItem.quantity existing + quantity in
                      if availableStock <? newQuantity
                      then (carts, inl (CannotAddMore availableStock))
                      else
                        let item := CartItem.set_quantity newQuantity existing in
                        let cart' :=
                          {| Cart.items := <[i := item]> (Cart.items cart);
                             Cart.coupon := Cart.coupon cart |} in
                        if cartItemValid item
                        then (<[user env := cart']> carts, inr cart')
                        else (carts, inl CartSaveFailed)
                  | None => (carts, inr cart)
                  end
              | None =>
                  let item :=
                    {| CartItem.product := productId;
                       CartItem.quantity := quantity;
                       CartItem.variant :=
                         match variant with
                         | Some sel => Some (VariantSel.with_sku variantSku sel)
                         | None => None
                         end;
                       CartItem.price := variantPrice;
                       CartItem.total := (variantPrice * inject_Z quantity)%Q;
                       CartItem.inStock := true |} in
                  let cart' :=
                    {| Cart.items := Cart.items cart ++ [item];
                       Cart.coupon := Cart.coupon cart |} in
                  if cartItemValid item
                  then (<[user env := cart']> carts, inr cart')
                  else (carts, inl CartSaveFailed)
              end
        end
  end.

(** The cart a handler works on after [Cart.findOne] and, when there is
    none, [Cart.create({ user, items: [] })]. *)
Definition cartOfUser (env : Env) (carts : gmap string Cart.t) : Cart.t :=
  default {| Cart.items := []; Cart.coupon := None |} (carts !! user env).

(** ** The coupon controller *)

(** The projection [select('code description discountType discountValue
    minPurchase maxDiscount')] of a coupon, without the description. *)
Module CouponView.

Record t := {
  code : string;
  discountType : DiscountType;
  discountValue : Q;
  minPurchase : Q;
  maxDiscount : option Q
}.

Definition of_coupon (c : Coupon.t) : t :=
  {| code := Coupon.code c; discountType := Coupon.discountType c;
     discountValue := Coupon.discountValue c;
     minPurchase := Coupon.minPurchase c;
     maxDiscount := Coupon.maxDiscount c |}.

End CouponView.

(** The query of [getActiveCoupons]:
    [{ isActive: true, startDate: {$lte: now}, endDate: {$gte: now},
       $or: [{usageLimit: null}, {usageLimit: {$gt: 0}}] }]. *)
Definition activeCouponQuery (now : Date) (c : Coupon.t) : bool :=
  Bool.eqb (Coupon.isActive c) true
  && (Coupon.startDate c <=? now)
  && (now <=? Coupon.endDate c)
  && match Coupon.usageLimit c with
     | None => true
     | Some l => 0 <? l
     end.

(** [getActiveCoupons]: the [data] of the response. *)
Definition getActiveCoupons (now : Date) (coupons : list Coupon.t)
  : list CouponView.t :=
  List.map CouponView.of_coupon (List.filter (activeCouponQuery now) coupons).

(** ** The specification's wording of two rules

    These two definitions follow the text of the specification, not the
    code; they are what the code is compared with. *)

(** "discount = totalAmount × discountValue / 100; if maxDiscount is set and
    discount exceeds it, clamp to maxDiscount". *)
Definition spec_percentageDiscount (c : Coupon.t) (totalAmount : Q) : Q :=
  let discount := (totalAmount * Coupon.discountValue c / 100)%Q in
  match Coupon.maxDiscount c with
  | Some m => if Qgtb discount m then m else discount
  | None => discount
  end.

(** "no sale window or now falls within [saleStart, saleEnd]": a missing
    end of the window does not bound it. *)
Definition spec_inSaleWindow (now : Date) (p : Product.t) : bool :=
  match Product.saleStart p with Some s => s <=? now | None => true end
  && match Product.saleEnd p with Some e => now <=? e | None => true end.

(** "if product.isOnSale is true AND a sale price is set AND (no sale window
    or now falls within the window) → sale price; else variant.price if a
    variant is selected, else product.price". [selected] is the variant the
    selector picked, if any. *)
Definition spec_unitPrice (now : Date) (p : Product.t)
    (selected : option Variant.t) : Q :=
  match Product.isOnSale p, Product.salePrice p with
  | true, Some s =>
      if spec_inSaleWindow now p then s
      else match selected with
           | Some v => Variant.price v
           | None => Product.price p
           end
  | _, _ =>
      match selected with
      | Some v => Variant.price v
      | None => Product.price p
      end
  end.

(** ** What the code resolves as the unit price *)

(** The sale price wins whenever the product is flagged on sale and has a
    non-zero sale price; the sale window plays no part. *)
Definition saleOr (p : Product.t) (regular : Q) : Q :=
  match Product.isOnSale p, Product.salePrice p with
  | true, Some s => if truthyQ s then s else regular
  | _, _ => regular
  end.

(** The price of the variant a selector matches, else the base price. *)
Definition regularPrice (p : Product.t) (sel : option VariantSel.t) : Q :=
  match sel with
  | Some s =>
      match Product.findVariant (VariantSel.sku s) p with
      | Some v => Variant.price v
      | None => Product.price p
      end
  | None => Product.price p
  end.

(** The stock of the variant a selector matches, else the product's. *)
Definition availableStock (p : Product.t) (sel : option VariantSel.t) : Z :=
  match sel with
  | Some s =>
      match Product.findVariant (VariantSel.sku s) p with
      | Some v => Variant.stock v
      | None => Product.stock p
      end
  | None => Product.stock p
  end.

(** The [min: 0] constraints of the product schema on prices (the sale
    price has none there; it is assumed not negative as well). *)
Definition prices_nonneg (p : Product.t) : Prop :=
  (0 <= Product.price p)%Q
  /\ (forall s, Product.salePrice p = Some s -> (0 <= s)%Q)
  /\ Forall (fun v => (0 <= Variant.price v)%Q) (Product.variants p).

(** ** Sample data *)

Module Sample.

Definition env : Env :=
  {| now := 50; user := "u1"; newId := "o1" |}.

Definition coupon (ty : DiscountType) (value : Q) (cap : option Q) : Coupon.t :=
  {| Coupon.code := "SAVE"; Coupon.discountType := ty;
     Coupon.discountValue := value; Coupon.minPurchase := 0;
     Coupon.maxDiscount := cap; Coupon.startDate := 0; Coupon.endDate := 100;
     Coupon.usageLimit := None; Coupon.usedCount := 0;
     Coupon.isActive := true |}.

Definition negativeCap : Coupon.t := coupon percentage 10 (Some (-5 # 1)).
Definition zeroCap : Coupon.t := coupon percentage 20 (Some 0%Q).
Definition capped : Coupon.t := coupon percentage 20 (Some 30%Q).
Definition fixedFive : Coupon.t := coupon fixed 5 None.

Definition exhausted : Coupon.t :=
  {| Coupon.code := "ONCE"; Coupon.discountType := fixed;
     Coupon.discountValue := 5; Coupon.minPurchase := 0;
     Coupon.maxDiscount := None; Coupon.startDate := 0; Coupon.endDate := 100;
     Coupon.usageLimit := Some 1; Coupon.usedCount := 1;
     Coupon.isActive := true |}.

Definition product (name sku : string) (price : Q) (stock : Z)
    (variants : list Variant.t) : Product.t :=
  {| Product.name := name; Product.sku := sku; Product.price := price;
     Product.stock := stock; Product.soldCount := 0;
     Product.isActive := true; Product.isOnSale := false;
     Product.salePrice := None; Product.saleStart := None;
     Product.saleEnd := None; Product.variants := variants |}.

Definition widget : Product.t := product "Widget" "WID" 100 5 [].
Definition gadget : Product.t := product "Gadget" "GAD" 20 2 [].
Definition fifty : Product.t := product "Fifty" "FIF" 50 3 [].
Definition cheap : Product.t := product "Cheap" "CHE" (4999 # 100) 3 [].

Definition shirt : Product.t :=
  product "Shirt" "SHIRT" 25 4
    [ {| Variant.sku := "SHIRT-S"; Variant.price := 30; Variant.stock := 4 |};
      {| Variant.sku := "SHIRT-M"; Variant.price := 35; Variant.stock := 1 |} ].

(** On sale at 80 instead of 100, in a window that ended at time 40. *)
Definition pastSale : Product.t :=
  {| Product.name := "Lamp"; Product.sku := "LAMP"; Product.price := 100;
     Product.stock := 5; Product.soldCount := 0;
     Product.isActive := true; Product.isOnSale := true;
     Product.salePrice := Some 80%Q; Product.saleStart := Some 10;
     Product.saleEnd := Some 40; Product.variants := [] |}.

(** On sale at 20, with one variant priced 30. *)
Definition saleShirt : Product.t :=
  {| Product.name := "Polo"; Product.sku := "POLO"; Product.price := 25;
     Product.stock := 4; Product.soldCount := 0;
     Product.isActive := true; Product.isOnSale := true;
     Product.salePrice := Some 20%Q; Product.saleStart := None;
     Product.saleEnd := None;
     Product.variants :=
       [ {| Variant.sku := "POLO-S"; Variant.price := 30; Variant.stock := 4 |} ] |}.

Definition catalog : gmap string Product.t :=
  <["p1" := widget]> (<["p2" := gadget]> (<["p3" := fifty]>
  (<["p4" := cheap]> (<["p5" := shirt]> (<["p6" := pastSale]>
  (<["p7" := saleShirt]> ∅)))))).

Definition db : DB := {| products := catalog; orders := ∅ |}.

Definition sel (sku : string) : VariantSel.t :=
  {| VariantSel.color := None; VariantSel.size := None;
     VariantSel.material := None; VariantSel.sku := sku |}.

Definition line (id : string) (q : Z) : Item.t :=
  {| Item.product := id; Item.variant := None; Item.quantity := q |}.

Definition request (items : list Item.t) (code : option string)
  : CreateOrderReq.t :=
  {| CreateOrderReq.items := items; CreateOrderReq.paymentMethod := "cod";
     CreateOrderReq.couponCode := code |}.

(** The order collection with one pending order of user u1, for two widgets
    and one small shirt, and the catalog with those units sold. *)
Definition order : Order.t :=
  {| Order.orderNumber := "ORD-20240101-1234";
     Order.user := "u1";
     Order.items :=
       [ {| OrderItem.product := "p1"; OrderItem.name := "Widget";
            OrderItem.price := 100; OrderItem.quantity := 2;
            OrderItem.variant := None; OrderItem.sku := "WID";
            OrderItem.total := 200 |};
         {| OrderItem.product := "p5"; OrderItem.name := "Shirt";
            OrderItem.price := 30; OrderItem.quantity := 1;
            OrderItem.variant := Some (sel "SHIRT-S");
            OrderItem.sku := "SHIRT-S"; OrderItem.total := 30 |} ];
     Order.itemsPrice := 230;
     Order.taxPrice := 184 # 10;
     Order.shippingPrice := 0;
     Order.totalPrice := 2484 # 10;
     Order.coupon := None;
     Order.paymentMethod := "cod";
     Order.paymentStatus := "pending";
     Order.trackingNumber := None;
     Order.carrier := None;
     Order.deliveredAt := None;
     Order.orderStatus := "pending";
     Order.statusHistory := [];
     Order.cancelledAt := None;
     Order.cancelledReason := None |}.

Definition placed : DB :=
  {| products :=
       <["p1" := Product.set_soldCount 2 (Product.set_stock 3 widget)]>
         (<["p5" :=
              Product.set_soldCount 1
                (Product.set_variants
                   [ {| Variant.sku := "SHIRT-S"; Variant.price := 30;
                        Variant.stock := 3 |};
                     {| Variant.sku := "SHIRT-M"; Variant.price := 35;
                        Variant.stock := 1 |} ]
                   shirt)]>
            catalog);
     orders := {[ "o1" := order ]} |}.

(** The placed order, confirmed by an admin. *)
Definition confirmed : DB :=
  (updateOrderStatus env "o1"
     {| UpdateStatusReq.status := "confirmed";
        UpdateStatusReq.trackingNumber := None;
        UpdateStatusReq.carrier := None |} placed).1.

Definition cartItem (id : string) (q : Z) (v : option VariantSel.t)
  : CartItem.t :=
  {| CartItem.product := id; CartItem.quantity := q; CartItem.variant := v;
     CartItem.price := 0; CartItem.total := 0; CartItem.inStock := true |}.

Definition cartOf (items : list CartItem.t) : gmap string Cart.t :=
  {[ "u1" := {| Cart.items := items; Cart.coupon := None |} ]}.

End Sample.

(** ** Further methods of the models *)

Module CartVirtuals.

(** method [clear] of [models/Cart.js] (the timestamp is not modelled) *)
Definition clear (c : Cart.t) : Cart.t :=
  {| Cart.items := []; Cart.coupon := None |}.

End CartVirtuals.

(** ** The rest of the cart controller

    A line of a cart is addressed by its position in [items]: the handlers
    find it with [cart.items.id(itemId)], and the ids of the lines of a cart
    are distinct. *)

Inductive CartUpdateError :=
| CartNotFound                       (* 'Cart not found', 404 *)
| CartItemNotFound                   (* 'Cart item not found', 404 *)
| ProductNoLongerAvailable           (* 'Product is no longer available', 400 *)
| OnlyInStock (available : Z).       (* `Only ${n} items available in stock`, 400 *)

Definition cart_status (e : CartUpdateError) : Z :=
  match e with
  | CartNotFound => 404
  | CartItemNotFound => 404
  | ProductNoLongerAvailable => 400
  | OnlyInStock _ => 400
  end.

Definition set_items (items : list CartItem.t) (c : Cart.t) : Cart.t :=
  {| Cart.items := items; Cart.coupon := Cart.coupon c |}.

Definition set_coupon (coupon : option CouponSnapshot.t) (c : Cart.t) : Cart.t :=
  {| Cart.items := Cart.items c; Cart.coupon := coupon |}.

(** The local [availableStock] of [updateCartItem] after the variant
    block. *)
Definition resolveUpdateStock (product : Product.t) (cartItem : CartItem.t) : Z :=
  let availableStock := Product.stock product in
  match CartItem.variant cartItem with
  | Some sel =>
      if (0 <? Z.of_nat (length (Product.variants product))) then
        match Product.findVariant (VariantSel.sku sel) product with
        | Some variant => Variant.stock variant
        | None => availableStock
        end
      else availableStock
  | None => availableStock
  end.

(** [updateCartItem] *)
Definition updateCartItem (env : Env) (itemId : nat) (quantity : Z)
    (ps : gmap string Product.t) (carts : gmap string Cart.t)
  : gmap string Cart.t * (CartUpdateError + Cart.t) :=
  match carts !! user env with
  | None => (carts, inl CartNotFound)
  | Some cart =>
      match Cart.items cart !! itemId with
      | None => (carts, inl CartItemNotFound)
      | Some cartItem =>
          let removed := set_items (delete itemId (Cart.items cart)) cart in
          match ps !! CartItem.product cartItem with
          | None => (<[user env := removed]> carts, inl ProductNoLongerAvailable)
          | Some product =>
              if negb (Product.isActive product)
              then (<[user env := removed]> carts, inl ProductNoLongerAvailable)
              else
                let availableStock := resolveUpdateStock product cartItem in
                if availableStock <? quantity
                then (carts, inl (OnlyInStock availableStock))
                else
                  let cart' :=
                    if quantity <? 1 then removed
                    else
                      set_items
                        (<[itemId :=
                             {| CartItem.product := CartItem.product cartItem;
                                CartItem.quantity := quantity;
                                CartItem.variant := CartItem.variant cartItem;
                                CartItem.price := CartItem.price cartItem;
                                CartItem.total :=
                                  (CartItem.price cartItem * inject_Z quantity)%Q;
                                CartItem.inStock := CartItem.inStock cartItem |}]>
                           (Cart.items cart))
                        cart in
                  (<[user env := cart']> carts, inr cart')
          end
      end
  end.

(** [removeFromCart] *)
Definition removeFromCart (env : Env) (itemId : nat) (carts : gmap string Cart.t)
  : gmap string Cart.t * (CartUpdateError + Cart.t) :=
  match carts !! user env with
  | None => (carts, inl CartNotFound)
  | Some cart =>
      match Cart.items cart !! itemId with
      | None => (carts, inl CartItemNotFound)
      | Some _ =>
          let cart' := set_items (delete itemId (Cart.items cart)) cart in
          (<[user env := cart']> carts, inr cart')
      end
  end.

(** [clearCart]: only [items] is reset. *)
Definition clearCart (env : Env) (carts : gmap string Cart.t)
  : gmap string Cart.t * (CartUpdateError + Cart.t) :=
  match carts !! user env with
  | None => (carts, inl CartNotFound)
  | Some cart =>
      let cart' := set_items [] cart in
      (<[user env := cart']> carts, inr cart')
  end.

(** The [data] of the response of [applyCoupon]. *)
Module CouponApplied.

Record t := {
  discount : Q;
  newTotal : Q
}.

End CouponApplied.

(** The loop of [applyCoupon]: the stored totals of the lines whose product
    is there and active. *)
Definition couponSubtotal (ps : gmap string Product.t) (items : list CartItem.t)
  : Q :=
  fold_left
    (fun subtotal item =>
       match ps !! CartItem.product item with
       | Some product =>
           if Product.isActive product
           then (subtotal + CartItem.total item)%Q else subtotal
       | None => subtotal
       end)
    items 0%Q.

(** [applyCoupon] *)
Definition applyCoupon (env : Env) (couponCode : string)
    (ps : gmap string Product.t) (carts : gmap string Cart.t)
  : gmap string Cart.t * (CartUpdateError + CouponApplied.t) :=
  match carts !! user env with
  | None => (carts, inl CartNotFound)
  | Some cart =>
      let subtotal := couponSubtotal ps (Cart.items cart) in
      let discount := (subtotal * (1 # 10))%Q in
      let cart' :=
        set_coupon (Some {| CouponSnapshot.code := couponCode;
                            CouponSnapshot.discount := discount |}) cart in
      (<[user env := cart']> carts,
       inr {| CouponApplied.discount := discount;
              CouponApplied.newTotal := (subtotal - discount)%Q |})
  end.

(** [removeCoupon] *)
Definition removeCoupon (env : Env) (carts : gmap string Cart.t)
  : gmap string Cart.t * (CartUpdateError + Cart.t) :=
  match carts !! user env with
  | None => (carts, inl CartNotFound)
  | Some cart =>
      let cart' := set_coupon None cart in
      (<[user env := cart']> carts, inr cart')
  end.

(** ** The rest of the coupon controller

    [toUpperCase] stands for [String.prototype.toUpperCase]. *)

Inductive CouponError :=
| CouponNotFound                          (* 'Coupon not found', 404 *)
| CouponIsNotValid                        (* 'Coupon is not valid', 400 *)
| MinimumPurchaseRequired (minPurchase : Q)   (* 400 *)
| Thrown (e : Error).                     (* the catch block, 500 *)

Module CouponValidated.

(** The [data] of the response of [validateCoupon]. *)
Record t := {
  coupon : CouponView.t;
  discount : Q;
  newTotal : Q
}.

End CouponValidated.

(** [validateCoupon] (the cart items of the body are not read) *)
Definition validateCoupon (toUpperCase : string -> string) (now : Date)
    (coupons : list Coupon.t) (code : string) (totalAmount : Q)
  : CouponError + CouponValidated.t :=
  match List.find
          (fun c => String.eqb (Coupon.code c) (toUpperCase code)
                    && Bool.eqb (Coupon.isActive c) true)
          coupons with
  | None => inl CouponNotFound
  | Some coupon =>
      if negb (Coupon.isValid now coupon) then inl CouponIsNotValid
      else if Qltb totalAmount (Coupon.minPurchase coupon)
      then inl (MinimumPurchaseRequired (Coupon.minPurchase coupon))
      else
        match Coupon.calculateDiscount now coupon totalAmount with
        | inl e => inl (Thrown e)
        | inr discount =>
            inr {| CouponValidated.coupon := CouponView.of_coupon coupon;
                   CouponValidated.discount := discount;
                   CouponValidated.newTotal := (totalAmount - discount)%Q |}
        end
  end.

(** [getCouponByCode] *)
Definition getCouponByCode (toUpperCase : string -> string) (now : Date)
    (coupons : list Coupon.t) (code : string) : CouponError + Coupon.t :=
  match List.find (fun c => String.eqb (Coupon.code c) (toUpperCase code))
          coupons with
  | None => inl CouponNotFound
  | Some coupon =>
      if negb (Coupon.isActiveNow now coupon) then inl CouponIsNotValid
      else inr coupon
  end.

(** ** The stock handler of the product controller *)

(** [updateStock]; [quantity] is what [parseInt] reads from the body. The
    validators of [save] reject a negative stock: the handler then answers
    from its catch block and nothing is written. *)
Definition updateStock (id : string) (quantity : Z) (operation : option string)
    (ps : gmap string Product.t)
  : gmap string Product.t * (Error + Product.t) :=
  let operation := default "add" operation in
  match ps !! id with
  | None => (ps, inl (ProductNotFound id))
  | Some product =>
      let stock :=
        if String.eqb operation "add" then Product.stock product + quantity
        else if String.eqb operation "subtract" then
          let s := Product.stock product - quantity in
          if s <? 0 then 0 else s
        else if String.eqb operation "set" then quantity
        else Product.stock product in
      let product' := Product.set_stock stock product in
      if Product.stock product' <? 0 then (ps, inl SaveFailed)
      else (<[id := product']> ps, inr product')
  end.

(** ** Helpers *)

(** [Math.round]: the nearest integer, a half rounded up. *)
Definition Math_round (q : Q) : Z := Qfloor (q + (1 # 2)).

(** [calculateDiscountPercentage] *)
Definition calculateDiscountPercentage (originalPrice salePrice : Q) : Z :=
  if negb (truthyQ originalPrice) || negb (truthyQ salePrice)
     || Qle_bool originalPrice salePrice
  then 0
  else Math_round ((originalPrice - salePrice) / originalPrice * 100).

(** ** Invariants of the product collection *)

(** No stock counter of the product is negative. *)
Definition stock_nonneg (p : Product.t) : Prop :=
  0 <= Product.stock p
  /\ Forall (fun v => 0 <= Variant.stock v) (Product.variants p).

(** [p'] is [p] up to its stock counters and its sold count. *)
Definition same_listing (p p' : Product.t) : Prop :=
  Product.name p' = Product.name p
  /\ Product.sku p' = Product.sku p
  /\ Product.price p' = Product.price p
  /\ Product.isActive p' = Product.isActive p
  /\ Product.isOnSale p' = Product.isOnSale p
  /\ Product.salePrice p' = Product.salePrice p
  /\ Product.saleStart p' = Product.saleStart p
  /\ Product.saleEnd p' = Product.saleEnd p
  /\ List.map Variant.sku (Product.variants p')
     = List.map Variant.sku (Product.variants p)
  /\ List.map Variant.price (Product.variants p')
     = List.map Variant.price (Product.variants p).

(** The units of product [id] in the lines of an order, and those of its
    lines without a variant. *)
Definition unitsOf (id : string) (lines : list OrderItem.t) : Z :=
  fold_right
    (fun line n =>
       if String.eqb (OrderItem.product line) id
       then OrderItem.quantity line + n else n)
    0 lines.

Definition plainUnitsOf (id : string) (lines : list OrderItem.t) : Z :=
  fold_right
    (fun line n =>
       match OrderItem.variant line with
       | None =>
           if String.eqb (OrderItem.product line) id
           then OrderItem.quantity line + n else n
       | Some _ => n
       end)
    0 lines.

(** ** Basic facts about amounts *)

Lemma Qltb_lt (a b : Q) : Qltb a b = true <-> (a < b)%Q.
Proof.
  unfold Qltb. rewrite negb_true_iff. split.
  - intros H. apply Qnot_le_lt. intros Hle.
    apply Qle_bool_iff in Hle. congruence.
  - intros H. destruct (Qle_bool b a) eqn:E; [|reflexivity].
    apply Qle_bool_iff in E. exfalso. eapply Qlt_not_le; eauto.
Qed.

Lemma Qltb_ge (a b : Q) : Qltb a b = false <-> (b <= a)%Q.
Proof. unfold Qltb. rewrite negb_false_iff. apply Qle_bool_iff. Qed.

Lemma truthyQ_false (q : Q) : truthyQ q = false <-> (q == 0)%Q.
Proof. unfold truthyQ. rewrite negb_false_iff. apply Qeq_bool_iff. Qed.

Lemma truthyQ_true (q : Q) : truthyQ q = true <-> ~ (q == 0)%Q.
Proof.
  unfold truthyQ. rewrite negb_true_iff. split.
  - intros H E. apply Qeq_bool_iff in E. congruence.
  - intros H. destruct (Qeq_bool q 0) eqn:E; [|reflexivity].
    apply Qeq_bool_iff in E. contradiction.
Qed.

(** ** The coupon evaluator *)

Section CouponFacts.

Variable now : Date.
Variable c : Coupon.t.

(** When [calculateDiscount] returns, both of its guards have passed. *)
Lemma calculateDiscount_inr (totalAmount d : Q) :
  Coupon.calculateDiscount now c totalAmount = inr d ->
  (Coupon.minPurchase c <= totalAmount)%Q
  /\ Coupon.isActiveNow now c = true
  /\ d = Qmin
           match Coupon.discountType c with
           | percentage => Coupon.percentageDiscount c totalAmount
           | fixed => Coupon.discountValue c
           end totalAmount.
Proof.
  unfold Coupon.calculateDiscount, Coupon.isValid.
  destruct (Qltb totalAmount (Coupon.minPurchase c)) eqn:Hmin; [discriminate|].
  destruct (Coupon.isActiveNow now c); simpl; [|discriminate].
  intros [= <-]. apply Qltb_ge in Hmin. auto.
Qed.

(** The final [Math.min] bounds the discount by the amount, whatever the
    coupon. *)
Lemma calculateDiscount_le_total (totalAmount d : Q) :
  Coupon.calculateDiscount now c totalAmount = inr d -> (d <= totalAmount)%Q.
Proof.
  intros H. apply calculateDiscount_inr in H as (_ & _ & ->).
  apply Q.le_min_r.
Qed.

(** The percentage branch never goes below zero when neither the amount,
    the rate nor a set cap does. *)
Lemma percentageDiscount_nonneg (totalAmount : Q) :
  (0 <= totalAmount)%Q -> (0 <= Coupon.discountValue c)%Q ->
  (forall m, Coupon.maxDiscount c = Some m -> (0 <= m)%Q) ->
  (0 <= Coupon.percentageDiscount c totalAmount)%Q.
Proof.
  intros Ht Hv Hm. unfold Coupon.percentageDiscount.
  assert (Hraw : (0 <= totalAmount * Coupon.discountValue c / 100)%Q).
  { unfold Qdiv. apply Qmult_le_0_compat; [|discriminate].
    apply Qmult_le_0_compat; assumption. }
  destruct (Coupon.maxDiscount c) as [m|]; [|exact Hraw].
  destruct (truthyQ m && Qgtb _ m); [apply Hm; reflexivity | exact Hraw].
Qed.

End CouponFacts.

(** C6, as stated, fails: a coupon whose cap is negative passes the schema
    (maxDiscount has no lower bound there) and [calculateDiscount] returns
    the negative cap: 10% of 100 capped at -5 gives -5. *)
Lemma calculateDiscount_negative_cap :
  Coupon.schema_valid Sample.negativeCap
  /\ exists d, Coupon.calculateDiscount 50 Sample.negativeCap 100 = inr d
               /\ (d < 0)%Q.
Proof.
  split.
  - split; vm_compute; discriminate.
  - eexists. split; [vm_compute; reflexivity | reflexivity].
Qed.

(** C6, amended: for every coupon that satisfies the schema and whose
    maxDiscount is unset or not negative, a discount returned by
    [calculateDiscount] lies in the closed interval [0, totalAmount]. *)
Theorem calculateDiscount_bounds (now : Date) (c : Coupon.t) (totalAmount d : Q) :
  Coupon.schema_valid c ->
  (forall m, Coupon.maxDiscount c = Some m -> (0 <= m)%Q) ->
  Coupon.calculateDiscount now c totalAmount = inr d ->
  (0 <= d)%Q /\ (d <= totalAmount)%Q.
Proof.
  intros [Hv Hmin] Hcap H. split; [|eapply calculateDiscount_le_total; eauto].
  apply calculateDiscount_inr in H as (Hle & _ & ->).
  assert (Ht : (0 <= totalAmount)%Q) by (eapply Qle_trans; eauto).
  apply Q.min_glb; [|exact Ht].
  destruct (Coupon.discountType c); [|exact Hv].
  apply percentageDiscount_nonneg; assumption.
Qed.

Lemma calculateDiscount_bounds_witness :
  exists d, Coupon.calculateDiscount 50 Sample.capped 200 = inr d
            /\ (0 <= d)%Q /\ (d <= 200)%Q.
Proof.
  exists 30%Q. split; [reflexivity|].
  apply (calculateDiscount_bounds 50 Sample.capped 200 30).
  - split; vm_compute; discriminate.
  - intros m [= <-]. vm_compute. discriminate.
  - reflexivity.
Defined.

(** The example of the specification: 20% of 200 capped at 30 is 30. *)
Example calculateDiscount_capped :
  Coupon.calculateDiscount 50 Sample.capped 200 = inr 30%Q.
Proof. reflexivity. Qed.

(** C7, as stated, fails at maxDiscount = 0: the guard
    [this.maxDiscount && ...] reads a zero cap as no cap, so 20% of 200
    stays 40 where the clamp of the specification gives 0. *)
Lemma calculateDiscount_zero_cap :
  exists d, Coupon.calculateDiscount 50 Sample.zeroCap 200 = inr d
            /\ (d == 40)%Q
            /\ (spec_percentageDiscount Sample.zeroCap 200 == 0)%Q
            /\ ~ (d == spec_percentageDiscount Sample.zeroCap 200)%Q.
Proof.
  eexists. split; [vm_compute; reflexivity|].
  repeat split; vm_compute; discriminate.
Qed.

(** C7, amended: for a percentage coupon, a returned discount is the
    smaller of totalAmount and the percentage amount
    totalAmount × discountValue / 100 clamped down to maxDiscount, the clamp
    applying whenever maxDiscount is set to a non-zero value that the
    percentage amount exceeds; a maxDiscount of 0 is read as no cap. *)
Theorem calculateDiscount_percentage (now : Date) (c : Coupon.t)
    (totalAmount d : Q) :
  Coupon.discountType c = percentage ->
  Coupon.calculateDiscount now c totalAmount = inr d ->
  ((forall m, Coupon.maxDiscount c = Some m -> ~ (m == 0)%Q) ->
   d = Qmin (spec_percentageDiscount c totalAmount) totalAmount)
  /\ (forall m, Coupon.maxDiscount c = Some m -> (m == 0)%Q ->
      d = Qmin (totalAmount * Coupon.discountValue c / 100)%Q totalAmount).
Proof.
  intros Hty H. apply calculateDiscount_inr in H as (_ & _ & ->).
  rewrite Hty. unfold Coupon.percentageDiscount, spec_percentageDiscount.
  split.
  - intros Hnz. destruct (Coupon.maxDiscount c) as [m|]; [|reflexivity].
    assert (Hm : truthyQ m = true) by (apply truthyQ_true, Hnz; reflexivity).
    rewrite Hm. reflexivity.
  - intros m -> Hz. apply truthyQ_false in Hz. rewrite Hz. reflexivity.
Qed.

Lemma calculateDiscount_percentage_witness :
  exists d, Coupon.calculateDiscount 50 Sample.capped 200 = inr d
            /\ d = Qmin (spec_percentageDiscount Sample.capped 200) 200.
Proof.
  exists 30%Q. split; [reflexivity|].
  refine (proj1 (calculateDiscount_percentage 50 Sample.capped 200 30 _ _) _).
  - reflexivity.
  - reflexivity.
  - intros m [= <-]. vm_compute. discriminate.
Defined.

(** ** The public listing of active coupons *)

(** A coupon whose usage is exhausted is not active now, and
    [calculateDiscount] throws for every amount. *)
Lemma exhausted_not_redeemable (now : Date) (c : Coupon.t) (l : Z) :
  Coupon.usageLimit c = Some l -> l <= Coupon.usedCount c ->
  Coupon.isActiveNow now c = false
  /\ forall totalAmount, exists e,
       Coupon.calculateDiscount now c totalAmount = inl e.
Proof.
  intros Hl Hused.
  assert (Hact : Coupon.isActiveNow now c = false).
  { unfold Coupon.isActiveNow. rewrite Hl.
    replace (Coupon.usedCount c <? l) with false by (symmetry; apply Z.ltb_ge; lia).
    apply andb_false_r. }
  split; [exact Hact|].
  intros totalAmount. unfold Coupon.calculateDiscount, Coupon.isValid.
  rewrite Hact. simpl.
  destruct (Qltb totalAmount (Coupon.minPurchase c)); eauto.
Qed.

(** C10: a coupon of the collection that is active, inside its validity
    window and has a positive usageLimit is in the listing of
    [getActiveCoupons] whatever its usedCount; when its usage is exhausted
    it is listed all the same, although [isActiveNow] is false and
    [calculateDiscount] fails for every amount. *)
Theorem getActiveCoupons_lists_exhausted (now : Date) (coupons : list Coupon.t)
    (c : Coupon.t) (l : Z) :
  In c coupons ->
  Coupon.isActive c = true ->
  Coupon.startDate c <= now <= Coupon.endDate c ->
  Coupon.usageLimit c = Some l -> 0 < l ->
  In (CouponView.of_coupon c) (getActiveCoupons now coupons)
  /\ (l <= Coupon.usedCount c ->
      Coupon.isActiveNow now c = false
      /\ forall totalAmount, exists e,
           Coupon.calculateDiscount now c totalAmount = inl e).
Proof.
  intros Hin Hact [Hs He] Hl Hpos. split.
  - unfold getActiveCoupons. apply in_map, filter_In. split; [exact Hin|].
    unfold activeCouponQuery. rewrite Hact, Hl. simpl.
    rewrite !andb_true_iff. repeat split.
    + apply Z.leb_le; lia.
    + apply Z.leb_le; lia.
    + apply Z.ltb_lt; lia.
  - intros Hused. eapply exhausted_not_redeemable; eauto.
Qed.

Lemma getActiveCoupons_lists_exhausted_witness :
  In (CouponView.of_coupon Sample.exhausted)
     (getActiveCoupons 50 [Sample.fixedFive; Sample.exhausted])
  /\ Coupon.isActiveNow 50 Sample.exhausted = false.
Proof.
  destruct (getActiveCoupons_lists_exhausted 50
              [Sample.fixedFive; Sample.exhausted] Sample.exhausted 1)
    as [Hin Hex].
  - right; left; reflexivity.
  - reflexivity.
  - simpl; lia.
  - reflexivity.
  - lia.
  - split; [exact Hin|]. apply Hex. simpl; lia.
Defined.

(** ** What the handlers come down to *)

(** The loop of [getCart] skips every item: the populated product carries
    no [isActive]. The items and the accumulators come out as they went
    in. *)
Lemma cartLoop_skips (ps : gmap string Product.t) (items : list CartItem.t) :
  forall (subtotal : Q) (totalItems : Z),
    cartLoop ps items subtotal totalItems = (items, subtotal, totalItems).
Proof.
  induction items as [|item rest IH]; intros subtotal totalItems; simpl;
    [reflexivity|].
  destruct (ps !! CartItem.product item) as [product|]; simpl;
    rewrite IH; reflexivity.
Qed.

(** [getCart] stores the cart it loaded (a new empty one when there was
    none) and answers with its lines and the summary of an empty
    purchase. *)
Lemma getCart_run (env : Env) (ps : gmap string Product.t)
    (carts : gmap string Cart.t) :
  let cart := default {| Cart.items := []; Cart.coupon := None |}
                (carts !! user env) in
  getCart env ps carts
  = (<[user env := cart]> carts, (Cart.items cart, cartSummary 0 0)).
Proof.
  unfold getCart. rewrite cartLoop_skips.
  destruct (carts !! user env) as [[items coupon]|]; reflexivity.
Qed.

(** What [prepareOrder] hands to [Order.create] when the loop has run to
    its end. *)
Lemma prepareOrder_inv (env : Env) (req : CreateOrderReq.t)
    (ps ps' : gmap string Product.t) (doc : NewOrder.t) :
  prepareOrder env req ps = (ps', inr doc) ->
  processItems (CreateOrderReq.items req) ps [] 0%Q
  = (ps', inr (NewOrder.items doc, NewOrder.itemsPrice doc))
  /\ NewOrder.orderNumber doc = None
  /\ NewOrder.user doc = user env
  /\ NewOrder.paymentMethod doc = CreateOrderReq.paymentMethod req
  /\ NewOrder.paymentStatus doc = "pending"
  /\ NewOrder.shippingPrice doc
     = (if Qgtb (NewOrder.itemsPrice doc) 50 then 0%Q else 10%Q)
  /\ NewOrder.taxPrice doc = (NewOrder.itemsPrice doc * (8 # 100))%Q.
Proof.
  unfold prepareOrder.
  destruct (processItems _ _ _ _) as [ps1 [e|[orderItems itemsPrice]]];
    [discriminate|].
  destruct (CreateOrderReq.couponCode req) as [code|];
    [destruct (negb (String.eqb code ""))|];
    intros [= <- <-]; repeat split; reflexivity.
Qed.

(** The products [prepareOrder] leaves behind are those its loop leaves
    behind. *)
Lemma prepareOrder_products (env : Env) (req : CreateOrderReq.t)
    (ps : gmap string Product.t) :
  (prepareOrder env req ps).1
  = (processItems (CreateOrderReq.items req) ps [] 0%Q).1.
Proof.
  unfold prepareOrder.
  destruct (processItems _ _ _ _) as [ps1 [e|[orderItems itemsPrice]]];
    [reflexivity|].
  destruct (CreateOrderReq.couponCode req) as [code|];
    [destruct (negb (String.eqb code ""))|]; reflexivity.
Qed.

(** [createOrder] never gets past [Order.create]: once the loop has run to
    its end the handler answers from its catch block, with the products as
    the loop left them and the orders as they were. *)
Lemma createOrder_run (env : Env) (req : CreateOrderReq.t) (db : DB) :
  createOrder env req db
  = match CreateOrderReq.items req with
    | [] => (db, inl NoItems)
    | _ =>
        match prepareOrder env req (products db) with
        | (ps, inl e) => ({| products := ps; orders := orders db |}, inl e)
        | (ps, inr _) =>
            ({| products := ps; orders := orders db |}, inl SaveFailed)
        end
    end.
Proof.
  unfold createOrder.
  destruct (CreateOrderReq.items req) as [|i items]; [reflexivity|].
  destruct (prepareOrder env req (products db)) as [ps [e|doc]] eqn:Hprep;
    [reflexivity|].
  apply prepareOrder_inv in Hprep as (_ & Hnumber & _).
  unfold Order.create. rewrite Hnumber. reflexivity.
Qed.

(** ** Shipping at the free-shipping threshold *)

(** The rule [amount > 50 ? 0 : 10] of both handlers. *)
Lemma shipping_rule (x : Q) :
  ((50 < x)%Q -> (if Qgtb x 50 then 0%Q else 10%Q) = 0%Q)
  /\ ((x <= 50)%Q -> (if Qgtb x 50 then 0%Q else 10%Q) = 10%Q)
  /\ (((if Qgtb x 50 then 0%Q else 10%Q) == 0)%Q -> (50 < x)%Q).
Proof.
  unfold Qgtb. destruct (Qltb 50 x) eqn:E.
  - apply Qltb_lt in E. repeat split; intros H; [lra | exact E].
  - apply Qltb_ge in E. repeat split; intros H; [lra | lra].
Qed.

(** C3, as stated, fails: for a request of one product priced exactly 50
    order creation computes itemsPrice 50 and a shipping charge of 10, not
    0, and hands both to [Order.create]. (The request is then answered with
    status 500, as every request whose lines pass.) *)
Lemma shipping_at_threshold_not_free :
  exists db' ps' doc,
    prepareOrder Sample.env (Sample.request [Sample.line "p3" 1] None)
      Sample.catalog = (ps', inr doc)
    /\ (NewOrder.itemsPrice doc == 50)%Q
    /\ NewOrder.shippingPrice doc = 10%Q
    /\ ~ (NewOrder.shippingPrice doc == 0)%Q
    /\ createOrder Sample.env (Sample.request [Sample.line "p3" 1] None)
         Sample.db = (db', inl SaveFailed).
Proof.
  eexists _, _, _. split; [vm_compute; reflexivity|].
  split; [vm_compute; reflexivity|]. split; [vm_compute; reflexivity|].
  split; [vm_compute; discriminate | vm_compute; reflexivity].
Qed.

(** C3, amended: in the cart summary and in order creation the shipping
    charge is 0 only when the subtotal (itemsPrice) is strictly greater
    than 50, and it is then 0; for every other subtotal, so for exactly 50
    and for 49.99, it is the flat fee of 10. The first part is the summary
    the cart controller computes from an accumulated subtotal, the second
    says that this is the summary [getCart] answers with, the third is
    about the object order creation hands to [Order.create]. *)
Theorem shipping_threshold :
  (forall (subtotal : Q) (totalItems : Z),
      Summary.subtotal (cartSummary subtotal totalItems) = subtotal
      /\ ((50 < subtotal)%Q ->
          Summary.shipping (cartSummary subtotal totalItems) = 0%Q)
      /\ ((subtotal <= 50)%Q ->
          Summary.shipping (cartSummary subtotal totalItems) = 10%Q)
      /\ ((Summary.shipping (cartSummary subtotal totalItems) == 0)%Q ->
          (50 < subtotal)%Q))
  /\ (forall (env : Env) (ps : gmap string Product.t)
             (carts : gmap string Cart.t),
        (getCart env ps carts).2.2
        = cartSummary
            (cartLoop ps (Cart.items (cartOfUser env carts)) 0%Q 0).1.2
            (cartLoop ps (Cart.items (cartOfUser env carts)) 0%Q 0).2)
  /\ (forall (env : Env) (req : CreateOrderReq.t)
             (ps ps' : gmap string Product.t) (doc : NewOrder.t),
        prepareOrder env req ps = (ps', inr doc) ->
        ((50 < NewOrder.itemsPrice doc)%Q -> NewOrder.shippingPrice doc = 0%Q)
        /\ ((NewOrder.itemsPrice doc <= 50)%Q ->
            NewOrder.shippingPrice doc = 10%Q)
        /\ ((NewOrder.shippingPrice doc == 0)%Q ->
            (50 < NewOrder.itemsPrice doc)%Q)).
Proof.
  split; [|split].
  - intros subtotal totalItems. split; [reflexivity|].
    apply (shipping_rule subtotal).
  - intros env ps carts. unfold getCart, cartOfUser.
    destruct (carts !! user env) as [cart|]; cbn [default];
      destruct (cartLoop ps _ 0%Q 0) as [[items subtotal] totalItems];
      reflexivity.
  - intros env req ps ps' doc Hprep.
    apply prepareOrder_inv in Hprep as (_ & _ & _ & _ & _ & Hship & _).
    rewrite Hship. apply shipping_rule.
Qed.

Lemma shipping_threshold_witness :
  exists ps' doc,
    prepareOrder Sample.env (Sample.request [Sample.line "p4" 1] None)
      Sample.catalog = (ps', inr doc)
    /\ (NewOrder.itemsPrice doc == 4999 # 100)%Q
    /\ NewOrder.shippingPrice doc = 10%Q.
Proof.
  eassert (Hprep : prepareOrder Sample.env
                     (Sample.request [Sample.line "p4" 1] None) Sample.catalog
                   = (_, inr _)) by (vm_compute; reflexivity).
  eexists _, _. split; [exact Hprep|].
  split; [vm_compute; reflexivity|].
  refine (proj1 (proj2 (proj2 (proj2 shipping_threshold) _ _ _ _ _ Hprep)) _).
  vm_compute. discriminate.
Defined.

(** ** Price and stock resolution *)

Lemma findVariant_no_variants (sku : string) (p : Product.t) :
  (0 <? Z.of_nat (length (Product.variants p))) = false ->
  Product.findVariant sku p = None.
Proof.
  unfold Product.findVariant. destruct (Product.variants p); [reflexivity|].
  simpl length. intros H. apply Z.ltb_ge in H. lia.
Qed.


(** [product.currentPrice || product.price] is [currentPrice]. *)
Lemma currentPrice_or_price (p : Product.t) :
  (if truthyQ (Product.currentPrice p)
   then Product.currentPrice p else Product.price p)
  = saleOr p (Product.price p).
Proof.
  unfold Product.currentPrice, saleOr.
  destruct (Product.isOnSale p), (Product.salePrice p) as [s|];
    try (destruct (truthyQ (Product.price p)); reflexivity).
  destruct (truthyQ s) eqn:Hs; [rewrite Hs; reflexivity|].
  destruct (truthyQ (Product.price p)); reflexivity.
Qed.

(** The price of an order line that matched no variant. *)
Lemma orderLine_price (ps ps' : gmap string Product.t) (item : Item.t)
    (line : OrderItem.t) (product : Product.t) :
  orderLine ps item = (ps', inr line) ->
  ps !! Item.product item = Some product ->
  (forall sel, Item.variant item = Some sel ->
               Product.findVariant (VariantSel.sku sel) product = None) ->
  OrderItem.price line = saleOr product (Product.price product).
Proof.
  unfold orderLine. intros H Hp Hnone. rewrite Hp in H.
  destruct (negb (Product.isActive product)); [discriminate|].
  unfold resolveOrderLine in H. rewrite currentPrice_or_price in H.
  destruct (Item.variant item) as [sel|].
  - rewrite (Hnone sel eq_refl) in H.
    destruct (0 <? Z.of_nat (length (Product.variants product)));
      [discriminate|].
    destruct (Product.stock product <? Item.quantity item); [discriminate|].
    injection H as _ <-. reflexivity.
  - destruct (Product.stock product <? Item.quantity item); [discriminate|].
    injection H as _ <-. reflexivity.
Qed.

(** The price of an order line that matched a variant. *)
Lemma orderLine_variant_price (ps ps' : gmap string Product.t) (item : Item.t)
    (line : OrderItem.t) (product : Product.t) (sel : VariantSel.t)
    (variant : Variant.t) :
  orderLine ps item = (ps', inr line) ->
  ps !! Item.product item = Some product ->
  Item.variant item = Some sel ->
  Product.findVariant (VariantSel.sku sel) product = Some variant ->
  OrderItem.price line = Variant.price variant.
Proof.
  unfold orderLine. intros H Hp Hsel Hfound. rewrite Hp in H.
  destruct (negb (Product.isActive product)); [discriminate|].
  unfold resolveOrderLine in H. rewrite Hsel, Hfound in H.
  destruct (0 <? Z.of_nat (length (Product.variants product))) eqn:Hn.
  - destruct (Variant.stock variant <? Item.quantity item); [discriminate|].
    injection H as _ <-. reflexivity.
  - rewrite (findVariant_no_variants _ _ Hn) in Hfound. discriminate.
Qed.

(** C4, as stated, fails: the sale window is not consulted. For a product
    flagged on sale at 80 whose window ended at time 40, the line order
    creation assembles at time 50 is priced 80, where the rule of the
    specification gives the base price 100. *)
Lemma expired_sale_still_applies :
  (spec_unitPrice (now Sample.env) Sample.pastSale None == 100)%Q
  /\ (exists ps' doc,
        prepareOrder Sample.env (Sample.request [Sample.line "p6" 1] None)
          Sample.catalog = (ps', inr doc)
        /\ OrderItem.price <$> NewOrder.items doc !! 0%nat = Some 80%Q)
  /\ ~ (80 == spec_unitPrice (now Sample.env) Sample.pastSale None)%Q.
Proof.
  split; [vm_compute; reflexivity|].
  split; [eexists _, _; split; vm_compute; reflexivity|].
  vm_compute. discriminate.
Qed.

(** In order creation a matched variant's price replaces the sale price:
    the line for the small polo is priced 30 although the product is on
    sale at 20. *)
Example createOrder_variant_overrides_sale :
  exists ps' doc,
    prepareOrder Sample.env
      (Sample.request
         [ {| Item.product := "p7"; Item.variant := Some (Sample.sel "POLO-S");
              Item.quantity := 1 |} ] None)
      Sample.catalog = (ps', inr doc)
    /\ OrderItem.price <$> NewOrder.items doc !! 0%nat = Some 30%Q.
Proof.
  eexists _, _; split; vm_compute; reflexivity.
Qed.

(** C4, amended: the unit price of every line order creation assembles is
    the price of the variant the line's selector matches; for a line that
    matches no variant it is the product's sale price exactly when isOnSale
    is true and a non-zero sale price is set (the sale window is not
    consulted), else the base price. *)
Theorem unit_price_resolution (ps ps' : gmap string Product.t) (item : Item.t)
    (line : OrderItem.t) (product : Product.t) :
  orderLine ps item = (ps', inr line) ->
  ps !! Item.product item = Some product ->
  (forall sel variant,
      Item.variant item = Some sel ->
      Product.findVariant (VariantSel.sku sel) product = Some variant ->
      OrderItem.price line = Variant.price variant)
  /\ ((forall sel, Item.variant item = Some sel ->
                   Product.findVariant (VariantSel.sku sel) product = None) ->
      OrderItem.price line
      = match Product.isOnSale product, Product.salePrice product with
        | true, Some s => if truthyQ s then s else Product.price product
        | _, _ => Product.price product
        end).
Proof.
  intros Hline Hp. split.
  - intros sel variant. eapply orderLine_variant_price; eauto.
  - intros Hnone. rewrite (orderLine_price _ _ _ _ _ Hline Hp Hnone).
    reflexivity.
Qed.

Lemma unit_price_resolution_witness :
  exists ps' line,
    orderLine Sample.catalog (Sample.line "p6" 1) = (ps', inr line)
    /\ OrderItem.price line = 80%Q.
Proof.
  eassert (Hline : orderLine Sample.catalog (Sample.line "p6" 1) = (_, inr _))
    by (vm_compute; reflexivity).
  eexists _, _. split; [exact Hline|].
  refine (proj2 (unit_price_resolution Sample.catalog _ (Sample.line "p6" 1) _
                   Sample.pastSale Hline _) _).
  - vm_compute. reflexivity.
  - intros sel Hsel. discriminate Hsel.
Defined.

(** ** An unmatched variant selector *)

(** The loop of [createOrder] over two lists in a row. *)
Lemma processItems_app (l1 l2 : list Item.t) :
  forall (ps : gmap string Product.t) (acc : list OrderItem.t) (price : Q),
    processItems (l1 ++ l2) ps acc price
    = match processItems l1 ps acc price with
      | (ps', inl e) => (ps', inl e)
      | (ps', inr (acc', price')) => processItems l2 ps' acc' price'
      end.
Proof.
  induction l1 as [|item l1 IH]; intros ps acc price; simpl; [reflexivity|].
  destruct (orderLine ps item) as [ps' [e|line]]; [reflexivity|].
  apply IH.
Qed.

(** An iteration that returns early leaves the products as it found
    them. *)
Lemma orderLine_error_keeps (ps ps' : gmap string Product.t) (item : Item.t)
    (e : Error) :
  orderLine ps item = (ps', inl e) -> ps' = ps.
Proof.
  unfold orderLine.
  destruct (ps !! Item.product item) as [product|]; [|congruence].
  destruct (negb (Product.isActive product)); [congruence|].
  destruct (resolveOrderLine product item) as [e'|[[a v] s]]; [congruence|].
  destruct (a <? Item.quantity item); congruence.
Qed.



(** [createOrder] on a request whose lines before [item] all pass: the
    response is whatever the iteration on [item] returns early with. *)
Lemma createOrder_early_return (env : Env) (req : CreateOrderReq.t) (db : DB)
    (pre post : list Item.t) (item : Item.t) (ps1 : gmap string Product.t)
    (acc : list OrderItem.t) (price : Q) (e : Error) :
  CreateOrderReq.items req = (pre ++ item :: post)%list ->
  processItems pre (products db) [] 0%Q = (ps1, inr (acc, price)) ->
  orderLine ps1 item = (ps1, inl e) ->
  createOrder env req db = ({| products := ps1; orders := orders db |}, inl e).
Proof.
  intros Hitems Hpre Hline. rewrite createOrder_run.
  unfold prepareOrder. rewrite Hitems.
  destruct (pre ++ item :: post)%list as [|i0 l0] eqn:Hl.
  { destruct pre; discriminate. }
  rewrite <- Hl, processItems_app, Hpre. simpl. rewrite Hline. reflexivity.
Qed.



(** ** The status history *)

Section StatusHistory.

Variable env : Env.
Variable db : DB.
Variable id : string.
Variable order : Order.t.
Hypothesis Hfound : orders db !! id = Some order.

Lemma existsb_eqb_In (s : string) (l : list string) :
  existsb (String.eqb s) l = true <-> In s l.
Proof.
  rewrite existsb_exists. split.
  - intros (x & Hin & Heq). apply String.eqb_eq in Heq. congruence.
  - intros Hin. exists s. split; [exact Hin | apply String.eqb_refl].
Qed.

(** An admin update to a status of the enum that differs from the current
    one appends one record. *)
Lemma updateOrderStatus_appends (req : UpdateStatusReq.t) :
  In (UpdateStatusReq.status req) Order.statuses ->
  UpdateStatusReq.status req <> Order.orderStatus order ->
  exists order',
    updateOrderStatus env id req db
    = ({| products := products db; orders := <[id := order']> (orders db) |},
       inr order')
    /\ Order.orderStatus order' = UpdateStatusReq.status req
    /\ Order.statusHistory order'
       = (Order.statusHistory order ++
          [ {| StatusRecord.status := UpdateStatusReq.status req;
               StatusRecord.timestamp := now env;
               StatusRecord.note :=
                 if String.eqb (UpdateStatusReq.status req) "cancelled"
                 then Order.cancelledReason order else Some "Status updated" |} ])%list.
Proof.
  intros Hin Hne. unfold updateOrderStatus. rewrite Hfound.
  unfold Order.save.
  cbn [Order.orderStatus Order.set_shipping Order.set_orderStatus].
  apply existsb_eqb_In in Hin. rewrite Hin.
  eexists. split; [reflexivity|].
  unfold Order.preSave.
  cbn [Order.orderStatus Order.set_shipping Order.set_orderStatus].
  apply String.eqb_neq in Hne. rewrite Hne. split; reflexivity.
Qed.

(** An admin update that repeats the current status is answered with
    success and leaves the history as it is. *)
Lemma updateOrderStatus_same_status (req : UpdateStatusReq.t) :
  In (UpdateStatusReq.status req) Order.statuses ->
  UpdateStatusReq.status req = Order.orderStatus order ->
  exists db' order',
    updateOrderStatus env id req db = (db', inr order')
    /\ Order.statusHistory order' = Order.statusHistory order.
Proof.
  intros Hin Heq. unfold updateOrderStatus. rewrite Hfound.
  unfold Order.save.
  cbn [Order.orderStatus Order.set_shipping Order.set_orderStatus].
  apply existsb_eqb_In in Hin. rewrite Hin.
  eexists _, _. split; [reflexivity|].
  unfold Order.preSave.
  cbn [Order.orderStatus Order.set_shipping Order.set_orderStatus].
  rewrite Heq, String.eqb_refl. reflexivity.
Qed.

(** An admin update to a status outside the enum fails in [save]: the
    handler answers with status 500 and nothing is written. *)
Lemma updateOrderStatus_invalid_status (req : UpdateStatusReq.t) :
  ~ In (UpdateStatusReq.status req) Order.statuses ->
  updateOrderStatus env id req db = (db, inl SaveFailed).
Proof.
  intros Hnot. unfold updateOrderStatus. rewrite Hfound.
  unfold Order.save.
  cbn [Order.orderStatus Order.set_shipping Order.set_orderStatus].
  destruct (existsb _ Order.statuses) eqn:E; [|reflexivity].
  apply existsb_eqb_In in E. contradiction.
Qed.

(** What [cancelOrder] does to an order of the caller that is pending or
    confirmed. *)
Lemma cancelOrder_accepted (reason : option string) :
  Order.user order = user env ->
  Order.orderStatus order = "pending" \/ Order.orderStatus order = "confirmed" ->
  exists order',
    cancelOrder env id reason db
    = ({| products := fold_left restoreLine (Order.items order) (products db);
          orders := <[id := order']> (orders db) |}, inr tt)
    /\ Order.orderStatus order' = "cancelled"
    /\ Order.items order' = Order.items order
    /\ Order.statusHistory order'
       = (Order.statusHistory order ++
          [ {| StatusRecord.status := "cancelled";
               StatusRecord.timestamp := now env;
               StatusRecord.note := reason |} ])%list.
Proof.
  intros Huser Hst. unfold cancelOrder. rewrite Hfound, Huser, String.eqb_refl.
  simpl negb at 1. cbv iota.
  assert (Hex : existsb (String.eqb (Order.orderStatus order))
                  ["pending"; "confirmed"] = true).
  { apply existsb_eqb_In. destruct Hst as [-> | ->]; simpl; auto. }
  rewrite Hex. simpl negb. cbv iota.
  unfold Order.save, Order.cancelOrder, Order.preSave.
  cbn [Order.orderStatus Order.set_cancelled Order.set_orderStatus].
  assert (Hne : String.eqb "cancelled" (Order.orderStatus order) = false).
  { apply String.eqb_neq. destruct Hst as [-> | ->]; discriminate. }
  rewrite Hne.
  change (existsb (String.eqb "cancelled") Order.statuses) with true.
  cbv iota. simpl negb. cbv iota.
  eexists. split; [reflexivity|]. simpl. auto.
Qed.

(** [cancelOrder] on an order of the caller in any other state. *)
Lemma cancelOrder_rejected (reason : option string) :
  Order.user order = user env ->
  Order.orderStatus order <> "pending" ->
  Order.orderStatus order <> "confirmed" ->
  cancelOrder env id reason db = (db, inl InvalidTransition).
Proof.
  intros Huser Hp Hc. unfold cancelOrder. rewrite Hfound, Huser, String.eqb_refl.
  simpl negb at 1. cbv iota.
  assert (Hex : existsb (String.eqb (Order.orderStatus order))
                  ["pending"; "confirmed"] = false).
  { destruct (existsb _ _) eqn:E; [|reflexivity].
    apply existsb_eqb_In in E. simpl in E.
    destruct E as [E | [E | []]]; congruence. }
  rewrite Hex. reflexivity.
Qed.

End StatusHistory.

(** C8: for every stored order, an accepted change of orderStatus (an admin
    update to a status of the enum other than the current one, or a
    cancellation from pending or confirmed) stores the order with exactly
    one {status, timestamp, note} record appended to its statusHistory, the
    earlier records kept as they were; a cancellation from any other state
    is answered with InvalidTransition and leaves the collections, and so
    the history, unchanged. *)
Theorem status_history_append_only (env : Env) (db : DB) (id : string)
    (order : Order.t) (req : UpdateStatusReq.t) (reason : option string) :
  orders db !! id = Some order ->
  (In (UpdateStatusReq.status req) Order.statuses ->
   UpdateStatusReq.status req <> Order.orderStatus order ->
   exists db' order' r,
     updateOrderStatus env id req db = (db', inr order')
     /\ orders db' !! id = Some order'
     /\ Order.statusHistory order' = (Order.statusHistory order ++ [r])%list
     /\ StatusRecord.status r = UpdateStatusReq.status req
     /\ StatusRecord.timestamp r = now env)
  /\ (Order.user order = user env ->
      Order.orderStatus order = "pending" \/ Order.orderStatus order = "confirmed" ->
      exists db' order',
        cancelOrder env id reason db = (db', inr tt)
        /\ orders db' !! id = Some order'
        /\ Order.statusHistory order'
           = (Order.statusHistory order ++
              [ {| StatusRecord.status := "cancelled";
                   StatusRecord.timestamp := now env;
                   StatusRecord.note := reason |} ])%list)
  /\ (Order.user order = user env ->
      Order.orderStatus order <> "pending" ->
      Order.orderStatus order <> "confirmed" ->
      cancelOrder env id reason db = (db, inl InvalidTransition)).
Proof.
  intros Hfound. split; [|split].
  - intros Hin Hne.
    destruct (updateOrderStatus_appends env db id order Hfound req Hin Hne)
      as (order' & Hrun & _ & Hhist).
    eexists _, order', _. split; [exact Hrun|].
    split; [apply lookup_insert_eq|]. split; [exact Hhist|]. split; reflexivity.
  - intros Huser Hst.
    destruct (cancelOrder_accepted env db id order Hfound reason Huser Hst)
      as (order' & Hrun & _ & _ & Hhist).
    eexists _, order'. split; [exact Hrun|].
    split; [apply lookup_insert_eq | exact Hhist].
  - apply cancelOrder_rejected. exact Hfound.
Qed.

Lemma status_history_append_only_witness :
  exists order db' order',
    orders Sample.placed !! "o1" = Some order
    /\ cancelOrder Sample.env "o1" (Some "ordered twice") Sample.placed
       = (db', inr tt)
    /\ orders db' !! "o1" = Some order'
    /\ Order.statusHistory order'
       = (Order.statusHistory order ++
          [ {| StatusRecord.status := "cancelled";
               StatusRecord.timestamp := 50;
               StatusRecord.note := Some "ordered twice" |} ])%list.
Proof.
  eexists.
  assert (Hfound : orders Sample.placed !! "o1" = Some _)
    by (vm_compute; reflexivity).
  destruct (status_history_append_only Sample.env Sample.placed "o1" _
              {| UpdateStatusReq.status := "confirmed";
                 UpdateStatusReq.trackingNumber := None;
                 UpdateStatusReq.carrier := None |}
              (Some "ordered twice") Hfound) as (_ & Hcancel & _).
  destruct Hcancel as (db' & order' & Hrun & Hget & Hhist).
  - reflexivity.
  - left. reflexivity.
  - exists db', order'. repeat split; try assumption.
Defined.

(** ** Cancelling an order and the stock *)

Lemma adjustVariantStock_inverse (sku : string) (q : Z) (vs : list Variant.t) :
  Product.adjustVariantStock sku q (Product.adjustVariantStock sku (- q) vs) = vs.
Proof.
  induction vs as [|v vs IH]; simpl; [reflexivity|].
  destruct (String.eqb (Variant.sku v) sku) eqn:E; simpl; rewrite E.
  - f_equal. destruct v as [s p st]. unfold Variant.set_stock. simpl.
    f_equal. lia.
  - f_equal. exact IH.
Qed.

Lemma findVariant_sku (sku : string) (p : Product.t) (v : Variant.t) :
  Product.findVariant sku p = Some v -> Variant.sku v = sku.
Proof.
  unfold Product.findVariant. intros H.
  apply List.find_some in H as [_ H]. apply String.eqb_eq in H. exact H.
Qed.

(** The restore step never writes [product.stock]. *)
Lemma restoreProduct_stock (item : OrderItem.t) (product : Product.t) :
  Product.stock (restoreProduct item product) = Product.stock product.
Proof.
  unfold restoreProduct.
  destruct (storedSku (OrderItem.variant item)); reflexivity.
Qed.

Lemma restoreLine_stock (ps : gmap string Product.t) (item : OrderItem.t)
    (pid : string) :
  Product.stock <$> restoreLine ps item !! pid = Product.stock <$> ps !! pid.
Proof.
  unfold restoreLine.
  destruct (ps !! OrderItem.product item) as [product|] eqn:Hp; [|reflexivity].
  rewrite lookup_insert. case_decide as Hk; [|reflexivity].
  subst pid. rewrite Hp. simpl. f_equal. apply restoreProduct_stock.
Qed.

Lemma restoreLoop_stock (items : list OrderItem.t) :
  forall (ps : gmap string Product.t) (pid : string),
    Product.stock <$> fold_left restoreLine items ps !! pid
    = Product.stock <$> ps !! pid.
Proof.
  induction items as [|item rest IH]; intros ps pid; simpl; [reflexivity|].
  rewrite IH. apply restoreLine_stock.
Qed.

(** C9 fails on the code: cancelling an order does not give back the stock
    of a line without a variant. For every stored order of the caller that
    is pending or confirmed, [cancelOrder] succeeds and every product has
    afterwards the product-level stock it had before the cancellation. So
    for a line without a variant, whose units order creation took from the
    product-level stock, restoring after reducing leaves the stock lowered
    by the quantity of the line and only puts soldCount back; for a line
    whose variant was matched, restoring after reducing does give the
    product back as it was. *)
Theorem cancelOrder_keeps_product_stock :
  (forall (env : Env) (db : DB) (id : string) (order : Order.t)
          (reason : option string),
      orders db !! id = Some order ->
      Order.user order = user env ->
      Order.orderStatus order = "pending"
      \/ Order.orderStatus order = "confirmed" ->
      exists db',
        cancelOrder env id reason db = (db', inr tt)
        /\ forall pid,
             Product.stock <$> products db' !! pid
             = Product.stock <$> products db !! pid)
  /\ (forall (product : Product.t) (item : Item.t) (line : OrderItem.t),
        Item.variant item = None ->
        OrderItem.variant line = None ->
        OrderItem.quantity line = Item.quantity item ->
        Product.stock (restoreProduct line (reduceStock product item))
        = Product.stock product - Item.quantity item
        /\ Product.soldCount (restoreProduct line (reduceStock product item))
           = Product.soldCount product)
  /\ (forall (product : Product.t) (item : Item.t) (line : OrderItem.t)
             (sel : VariantSel.t) (variant : Variant.t),
        Item.variant item = Some sel ->
        Product.findVariant (VariantSel.sku sel) product = Some variant ->
        OrderItem.variant line
        = Some (VariantSel.with_sku (Variant.sku variant) sel) ->
        OrderItem.quantity line = Item.quantity item ->
        restoreProduct line (reduceStock product item) = product).
Proof.
  split; [|split].
  - intros env db id order reason Hfound Huser Hst.
    destruct (cancelOrder_accepted env db id order Hfound reason Huser Hst)
      as (order' & Hrun & _).
    eexists. split; [exact Hrun|].
    intros pid. cbn [products]. apply restoreLoop_stock.
  - intros product item line Hi Hl Hq.
    unfold restoreProduct, reduceStock. rewrite Hi, Hl, Hq. simpl.
    split; lia.
  - intros product item line sel variant Hi Hf Hl Hq.
    unfold restoreProduct, reduceStock. rewrite Hi, Hl, Hq.
    cbn [storedSku fmap option_fmap option_map VariantSel.with_sku VariantSel.sku].
    rewrite (findVariant_sku _ _ _ Hf).
    destruct product as [n s pr st sc ia os sp ss se vs].
    unfold Product.set_soldCount, Product.set_variants. simpl.
    f_equal; [lia | apply adjustVariantStock_inverse].
Qed.

Lemma cancelOrder_keeps_product_stock_witness :
  exists db',
    cancelOrder Sample.env "o1" None Sample.placed = (db', inr tt)
    /\ Product.stock Sample.widget = 5
    /\ Product.stock <$> products Sample.placed !! "p1" = Some 3
    /\ Product.stock <$> products db' !! "p1" = Some 3
    /\ Product.soldCount <$> products db' !! "p1" = Some 0
    /\ Product.variants <$> products db' !! "p5"
       = Some (Product.variants Sample.shirt).
Proof.
  destruct (proj1 cancelOrder_keeps_product_stock Sample.env Sample.placed "o1"
              Sample.order None) as (db' & Hrun & Hstock).
  - reflexivity.
  - reflexivity.
  - left. reflexivity.
  - exists db'. split; [exact Hrun|]. split; [reflexivity|].
    split; [reflexivity|]. split; [rewrite Hstock; reflexivity|].
    assert (Hdb : (cancelOrder Sample.env "o1" None Sample.placed).1 = db')
      by (rewrite Hrun; reflexivity).
    rewrite <- Hdb. split; vm_compute; reflexivity.
Defined.

(** ** Order creation that fails part-way *)

(** When the first line of a request is the one that fails, nothing has
    been saved yet. *)
Lemma createOrder_first_line_fails (env : Env) (req : CreateOrderReq.t)
    (db : DB) (item : Item.t) (rest : list Item.t) (e : Error) :
  CreateOrderReq.items req = item :: rest ->
  orderLine (products db) item = (products db, inl e) ->
  createOrder env req db = (db, inl e).
Proof.
  intros Hitems Hline.
  rewrite (createOrder_early_return env req db [] rest item (products db) [] 0%Q e
             Hitems eq_refl Hline).
  destruct db; reflexivity.
Qed.

(** C1 fails on the code: a request for one widget (5 in stock) and ten
    gadgets (2 in stock) is answered with InsufficientStock for the gadget,
    no order is stored, and yet the widget's stock has gone from 5 to 4 and
    its soldCount from 0 to 1: the first line was saved before the second
    one was checked. *)
Theorem createOrder_partial_decrement :
  exists db',
    createOrder Sample.env
      (Sample.request [Sample.line "p1" 1; Sample.line "p2" 10] None) Sample.db
    = (db', inl (InsufficientStock "Gadget" 2))
    /\ orders db' = ∅
    /\ Product.stock <$> products Sample.db !! "p1" = Some 5
    /\ Product.soldCount <$> products Sample.db !! "p1" = Some 0
    /\ Product.stock <$> products db' !! "p1" = Some 4
    /\ Product.soldCount <$> products db' !! "p1" = Some 1.
Proof.
  eexists. split; [vm_compute; reflexivity|].
  repeat split; vm_compute; reflexivity.
Qed.

(** ** The coupon of a new order *)

(** What order creation does with a non-empty coupon code: a tenth of
    itemsPrice is taken off, whatever the coupon is. *)
Lemma prepareOrder_coupon (env : Env) (req : CreateOrderReq.t)
    (ps ps' : gmap string Product.t) (doc : NewOrder.t) (code : string) :
  prepareOrder env req ps = (ps', inr doc) ->
  CreateOrderReq.couponCode req = Some code -> code <> "" ->
  NewOrder.coupon doc
  = Some {| CouponSnapshot.code := code;
            CouponSnapshot.discount := (NewOrder.itemsPrice doc * (1 # 10))%Q |}
  /\ NewOrder.totalPrice doc
     = (NewOrder.itemsPrice doc + NewOrder.shippingPrice doc
        + NewOrder.taxPrice doc - NewOrder.itemsPrice doc * (1 # 10))%Q.
Proof.
  unfold prepareOrder. intros H Hcode Hne.
  destruct (processItems _ _ _ _) as [ps1 [e|[orderItems itemsPrice]]];
    [discriminate|].
  rewrite Hcode in H. apply String.eqb_neq in Hne. rewrite Hne in H.
  simpl in H. injection H as _ <-. split; reflexivity.
Qed.

(** The amounts order creation hands to [Order.create]. *)
Lemma prepareOrder_prices (env : Env) (req : CreateOrderReq.t)
    (ps ps' : gmap string Product.t) (doc : NewOrder.t) :
  prepareOrder env req ps = (ps', inr doc) ->
  let sum := (NewOrder.itemsPrice doc + NewOrder.shippingPrice doc
              + NewOrder.taxPrice doc)%Q in
  NewOrder.shippingPrice doc
  = (if Qgtb (NewOrder.itemsPrice doc) 50 then 0%Q else 10%Q)
  /\ NewOrder.taxPrice doc = (NewOrder.itemsPrice doc * (8 # 100))%Q
  /\ NewOrder.totalPrice doc
     = match NewOrder.coupon doc with
       | Some snap => (sum - CouponSnapshot.discount snap)%Q
       | None => sum
       end
  /\ forall snap, NewOrder.coupon doc = Some snap ->
       CouponSnapshot.discount snap = (NewOrder.itemsPrice doc * (1 # 10))%Q.
Proof.
  unfold prepareOrder. intros H.
  destruct (processItems _ _ _ _) as [ps1 [e|[orderItems itemsPrice]]];
    [discriminate|].
  destruct (CreateOrderReq.couponCode req) as [code|];
    [destruct (negb (String.eqb code ""))|];
    simpl in H; injection H as _ <-;
    (repeat split; try reflexivity); intros snap [= <-]; reflexivity.
Qed.

(** The total is not negative when itemsPrice is not. *)
Lemma prepareOrder_total_nonneg (env : Env) (req : CreateOrderReq.t)
    (ps ps' : gmap string Product.t) (doc : NewOrder.t) :
  prepareOrder env req ps = (ps', inr doc) ->
  (0 <= NewOrder.itemsPrice doc)%Q -> (0 <= NewOrder.totalPrice doc)%Q.
Proof.
  intros H Hitems.
  apply prepareOrder_prices in H as (Hship & Htax & Htotal & Hcoupon).
  rewrite Htotal, Htax.
  assert (Hs : (0 <= NewOrder.shippingPrice doc)%Q).
  { rewrite Hship. destruct (Qgtb (NewOrder.itemsPrice doc) 50); discriminate. }
  destruct (NewOrder.coupon doc) as [snap|].
  - rewrite (Hcoupon snap eq_refl). lra.
  - lra.
Qed.

(** C2 fails on the code: with the coupon code of a valid coupon worth a
    fixed 5, [calculateDiscount] gives 5 on the order amount (on itemsPrice
    100 as on the total 108), but order creation takes 10 off and hands a
    total of 98 to [Order.create]: it never looks the coupon up. The request
    is then answered with status 500: no order is stored, and the widget's
    stock has gone from 5 to 4. *)
Theorem createOrder_ignores_coupon :
  exists db' ps' doc snap,
    createOrder Sample.env
      (Sample.request [Sample.line "p1" 1] (Some (Coupon.code Sample.fixedFive)))
      Sample.db = (db', inl SaveFailed)
    /\ orders db' = ∅
    /\ Product.stock <$> products db' !! "p1" = Some 4
    /\ prepareOrder Sample.env
         (Sample.request [Sample.line "p1" 1]
            (Some (Coupon.code Sample.fixedFive)))
         Sample.catalog = (ps', inr doc)
    /\ NewOrder.coupon doc = Some snap
    /\ (CouponSnapshot.discount snap == 10)%Q
    /\ (NewOrder.totalPrice doc == 98)%Q
    /\ Coupon.calculateDiscount (now Sample.env) Sample.fixedFive
         (NewOrder.itemsPrice doc) = inr 5%Q
    /\ Coupon.calculateDiscount (now Sample.env) Sample.fixedFive 108 = inr 5%Q
    /\ ~ (CouponSnapshot.discount snap == 5)%Q.
Proof.
  eexists _, _, _, _. split; [vm_compute; reflexivity|].
  split; [vm_compute; reflexivity|].
  split; [vm_compute; reflexivity|].
  split; [vm_compute; reflexivity|].
  split; [vm_compute; reflexivity|].
  repeat split; vm_compute; try reflexivity; discriminate.
Qed.

(** *** Amounts of an order are not negative *)

Lemma adjustVariantStock_prices (sku : string) (d : Z) (vs : list Variant.t) :
  Forall (fun v => (0 <= Variant.price v)%Q) vs ->
  Forall (fun v => (0 <= Variant.price v)%Q) (Product.adjustVariantStock sku d vs).
Proof.
  induction 1 as [|v vs Hv Hvs IH]; simpl; [constructor|].
  destruct (String.eqb (Variant.sku v) sku); constructor; assumption.
Qed.

Lemma reduceStock_prices (p : Product.t) (item : Item.t) :
  prices_nonneg p -> prices_nonneg (reduceStock p item).
Proof.
  intros (Hp & Hs & Hv). unfold reduceStock.
  destruct (Item.variant item) as [sel|]; repeat split; simpl; try assumption.
  apply adjustVariantStock_prices. exact Hv.
Qed.

Lemma saleOr_nonneg (p : Product.t) (regular : Q) :
  prices_nonneg p -> (0 <= regular)%Q -> (0 <= saleOr p regular)%Q.
Proof.
  intros (_ & Hs & _) Hr. unfold saleOr.
  destruct (Product.isOnSale p), (Product.salePrice p) as [s|]; try exact Hr.
  destruct (truthyQ s); [apply Hs; reflexivity | exact Hr].
Qed.

(** One iteration keeps the prices of the collection as they are and
    pushes a line whose total is not negative. *)
Lemma orderLine_nonneg (ps ps' : gmap string Product.t) (item : Item.t)
    (line : OrderItem.t) :
  (forall id p, ps !! id = Some p -> prices_nonneg p) ->
  1 <= Item.quantity item ->
  orderLine ps item = (ps', inr line) ->
  (forall id p, ps' !! id = Some p -> prices_nonneg p)
  /\ (0 <= OrderItem.total line)%Q.
Proof.
  intros Hall Hq. unfold orderLine.
  destruct (ps !! Item.product item) as [product|] eqn:Hp; [|discriminate].
  pose proof (Hall _ _ Hp) as Hprod.
  destruct (negb (Product.isActive product)); [discriminate|].
  destruct (resolveOrderLine product item) as [e|[[a v] s]] eqn:Hres;
    [discriminate|].
  destruct (a <? Item.quantity item); [discriminate|].
  intros [= <- <-]. split.
  - intros id p. rewrite lookup_insert. case_decide.
    + intros [= <-]. apply reduceStock_prices. exact Hprod.
    + apply Hall.
  - cbn [OrderItem.total].
    assert (Hv : (0 <= v)%Q).
    { unfold resolveOrderLine in Hres. rewrite currentPrice_or_price in Hres.
      assert (Hbase : (0 <= saleOr product (Product.price product))%Q)
        by (apply saleOr_nonneg; [exact Hprod | exact (proj1 Hprod)]).
      destruct (Item.variant item) as [sel|].
      - destruct (0 <? Z.of_nat (length (Product.variants product))).
        + destruct (Product.findVariant (VariantSel.sku sel) product)
            as [variant|] eqn:Hf; [|discriminate].
          injection Hres as _ <- _.
          destruct Hprod as (_ & _ & Hvs). rewrite Forall_forall in Hvs.
          apply Hvs.
          unfold Product.findVariant in Hf.
          apply List.find_some in Hf as [Hin _]. exact Hin.
        + injection Hres as _ <- _. exact Hbase.
      - injection Hres as _ <- _. exact Hbase. }
    apply Qmult_le_0_compat; [exact Hv|].
    change 0%Q with (inject_Z 0). rewrite <- Zle_Qle. lia.
Qed.

Lemma processItems_nonneg (items : list Item.t) :
  forall (ps ps' : gmap string Product.t) (acc acc' : list OrderItem.t)
         (price price' : Q),
    (forall id p, ps !! id = Some p -> prices_nonneg p) ->
    forallb (fun i => 1 <=? Item.quantity i) items = true ->
    (0 <= price)%Q ->
    processItems items ps acc price = (ps', inr (acc', price')) ->
    (0 <= price')%Q.
Proof.
  induction items as [|item rest IH]; intros ps ps' acc acc' price price' Hall Hq Hp;
    simpl.
  - intros [= _ _ <-]. exact Hp.
  - simpl in Hq. apply andb_true_iff in Hq as [Hq1 Hq].
    apply Z.leb_le in Hq1.
    destruct (orderLine ps item) as [ps1 [e|line]] eqn:Hline; [discriminate|].
    destruct (orderLine_nonneg _ _ _ _ Hall Hq1 Hline) as [Hall1 Ht].
    apply IH; [exact Hall1 | exact Hq|].
    apply Qle_trans with (0 + 0)%Q; [discriminate|].
    apply Qplus_le_compat; assumption.
Qed.

Lemma sample_catalog_prices_nonneg :
  forall id p, Sample.catalog !! id = Some p -> prices_nonneg p.
Proof.
  unfold Sample.catalog.
  repeat apply map_Forall_insert_2; try apply map_Forall_empty;
    (split; [discriminate|]);
    (split; [intros s [= <-]; discriminate | repeat constructor; discriminate]).
Qed.

(** X30: on a request that passed [createOrderValidation], over products
    whose prices are not negative, the itemsPrice and the totalPrice that
    order creation hands to [Order.create] are not negative, with or without
    a coupon code. *)
Theorem prepareOrder_total_nonneg_valid (env : Env) (req : CreateOrderReq.t)
    (ps ps' : gmap string Product.t) (doc : NewOrder.t) :
  createOrderValidation req = true ->
  (forall id p, ps !! id = Some p -> prices_nonneg p) ->
  prepareOrder env req ps = (ps', inr doc) ->
  (0 <= NewOrder.itemsPrice doc)%Q /\ (0 <= NewOrder.totalPrice doc)%Q.
Proof.
  intros Hvalid Hall Hprep.
  assert (Hitems : (0 <= NewOrder.itemsPrice doc)%Q).
  { unfold createOrderValidation in Hvalid.
    apply andb_true_iff in Hvalid as [Hvalid _].
    apply andb_true_iff in Hvalid as [_ Hq].
    pose proof (prepareOrder_inv _ _ _ _ _ Hprep) as (Hloop & _).
    apply processItems_nonneg in Hloop;
      [exact Hloop | exact Hall | exact Hq | discriminate]. }
  split; [exact Hitems|].
  eapply prepareOrder_total_nonneg; eauto.
Qed.

Lemma prepareOrder_total_nonneg_valid_witness :
  exists ps' doc,
    prepareOrder Sample.env (Sample.request [Sample.line "p2" 1] (Some "ANY"))
      Sample.catalog = (ps', inr doc)
    /\ (NewOrder.totalPrice doc == 296 # 10)%Q
    /\ (0 <= NewOrder.totalPrice doc)%Q.
Proof.
  eassert (Hprep : prepareOrder Sample.env
                     (Sample.request [Sample.line "p2" 1] (Some "ANY"))
                     Sample.catalog = (_, inr _))
    by (vm_compute; reflexivity).
  eexists _, _. split; [exact Hprep|]. split; [vm_compute; reflexivity|].
  refine (proj2 (prepareOrder_total_nonneg_valid _ _ _ _ _ _
                   sample_catalog_prices_nonneg Hprep)).
  reflexivity.
Defined.

(** ** The lines and the amounts of a new order *)

(** What one iteration of [createOrder] pushes. *)
Lemma orderLine_line (ps ps' : gmap string Product.t) (item : Item.t)
    (line : OrderItem.t) :
  orderLine ps item = (ps', inr line) ->
  OrderItem.product line = Item.product item
  /\ OrderItem.quantity line = Item.quantity item
  /\ OrderItem.total line
     = (OrderItem.price line * inject_Z (OrderItem.quantity line))%Q
  /\ (OrderItem.variant line = None <-> Item.variant item = None).
Proof.
  unfold orderLine.
  destruct (ps !! Item.product item) as [product|]; [|discriminate].
  destruct (negb (Product.isActive product)); [discriminate|].
  destruct (resolveOrderLine product item) as [e|[[a v] s]]; [discriminate|].
  destruct (a <? Item.quantity item); [discriminate|].
  intros [= _ <-]. cbn. repeat split; try reflexivity.
  all: destruct (Item.variant item); congruence.
Qed.

Lemma processItems_lines (items : list Item.t) :
  forall (ps ps' : gmap string Product.t) (acc acc' : list OrderItem.t)
         (price price' : Q),
    processItems items ps acc price = (ps', inr (acc', price')) ->
    exists lines,
      acc' = (acc ++ lines)%list
      /\ List.map OrderItem.product lines = List.map Item.product items
      /\ List.map OrderItem.quantity lines = List.map Item.quantity items
      /\ Forall (fun l => OrderItem.total l
                          = (OrderItem.price l * inject_Z (OrderItem.quantity l))%Q)
           lines
      /\ price' = fold_left (fun sum l => (sum + OrderItem.total l)%Q) lines price.
Proof.
  induction items as [|item rest IH]; intros ps ps' acc acc' price price'; simpl.
  - intros [= _ <- <-]. exists []. rewrite app_nil_r. repeat split. constructor.
  - destruct (orderLine ps item) as [ps1 [e|line]] eqn:Hline; [discriminate|].
    intros Hrest. apply IH in Hrest as (lines & -> & Hp & Hq & Ht & ->).
    apply orderLine_line in Hline as (Hlp & Hlq & Hlt & _).
    exists (line :: lines). rewrite <- app_assoc. simpl.
    rewrite Hp, Hq, Hlp, Hlq. repeat split. constructor; assumption.
Qed.

(** X1: the items order creation hands to [Order.create] mirror the lines
    of the request, in order: same products, same quantities; each item's
    total is its price times its quantity, and itemsPrice is the sum of the
    totals taken from left to right. The object carries no order number, the
    caller as its user and a pending payment. *)
Theorem prepareOrder_lines (env : Env) (req : CreateOrderReq.t)
    (ps ps' : gmap string Product.t) (doc : NewOrder.t) :
  prepareOrder env req ps = (ps', inr doc) ->
  List.map OrderItem.product (NewOrder.items doc)
  = List.map Item.product (CreateOrderReq.items req)
  /\ List.map OrderItem.quantity (NewOrder.items doc)
     = List.map Item.quantity (CreateOrderReq.items req)
  /\ Forall (fun l => OrderItem.total l
                      = (OrderItem.price l * inject_Z (OrderItem.quantity l))%Q)
       (NewOrder.items doc)
  /\ NewOrder.itemsPrice doc
     = fold_left (fun sum l => (sum + OrderItem.total l)%Q)
         (NewOrder.items doc) 0%Q
  /\ NewOrder.orderNumber doc = None
  /\ NewOrder.user doc = user env
  /\ NewOrder.paymentStatus doc = "pending".
Proof.
  intros H.
  apply prepareOrder_inv in H as (Hloop & Hnumber & Huser & _ & Hpay & _).
  apply processItems_lines in Hloop as (lines & Hitems & Hp & Hq & Ht & Hsum).
  simpl in Hitems. subst lines.
  repeat split; assumption.
Qed.

Lemma prepareOrder_lines_witness :
  exists ps' doc,
    prepareOrder Sample.env
      (Sample.request
         [ Sample.line "p1" 2;
           {| Item.product := "p5"; Item.variant := Some (Sample.sel "SHIRT-S");
              Item.quantity := 1 |} ] None)
      Sample.catalog = (ps', inr doc)
    /\ List.map OrderItem.quantity (NewOrder.items doc) = [2; 1]
    /\ (NewOrder.itemsPrice doc == 230)%Q.
Proof.
  eassert (Hprep : prepareOrder Sample.env
                     (Sample.request
                        [ Sample.line "p1" 2;
                          {| Item.product := "p5";
                             Item.variant := Some (Sample.sel "SHIRT-S");
                             Item.quantity := 1 |} ] None)
                     Sample.catalog = (_, inr _))
    by (vm_compute; reflexivity).
  eexists _, _. split; [exact Hprep|].
  pose proof (prepareOrder_lines _ _ _ _ _ Hprep) as (_ & Hq & _).
  split; [exact Hq | vm_compute; reflexivity].
Defined.

(** X2: [createOrder] never answers with an order and never stores one: in
    every outcome the response is a failure and the order collection is as
    it was. When every line of a request with at least one line passes, the
    answer comes from the catch block (status 500) and the products stay as
    the loop left them. *)
Theorem createOrder_never_stores (env : Env) (req : CreateOrderReq.t) (db : DB) :
  (exists e, (createOrder env req db).2 = inl e)
  /\ orders (createOrder env req db).1 = orders db
  /\ (forall ps doc,
        CreateOrderReq.items req <> [] ->
        prepareOrder env req (products db) = (ps, inr doc) ->
        createOrder env req db
        = ({| products := ps; orders := orders db |}, inl SaveFailed)
        /\ http_status SaveFailed = 500).
Proof.
  rewrite createOrder_run.
  destruct (CreateOrderReq.items req) as [|i items].
  - split; [eexists; reflexivity|]. split; [reflexivity|].
    intros ps doc Hne. contradiction.
  - destruct (prepareOrder env req (products db)) as [ps [e|doc]].
    + split; [eexists; reflexivity|]. split; [reflexivity|].
      intros ps0 doc _ [=].
    + split; [eexists; reflexivity|]. split; [reflexivity|].
      intros ps0 doc0 _ [= <- <-]. split; reflexivity.
Qed.

Lemma createOrder_never_stores_witness :
  exists db',
    createOrder Sample.env (Sample.request [Sample.line "p1" 2] None) Sample.db
    = (db', inl SaveFailed)
    /\ orders db' = ∅
    /\ Product.stock <$> products db' !! "p1" = Some 3
    /\ Product.soldCount <$> products db' !! "p1" = Some 2.
Proof.
  eassert (Hprep : prepareOrder Sample.env
                     (Sample.request [Sample.line "p1" 2] None)
                     (products Sample.db) = (_, inr _))
    by (vm_compute; reflexivity).
  destruct (createOrder_never_stores Sample.env
              (Sample.request [Sample.line "p1" 2] None) Sample.db)
    as (_ & _ & Hrun).
  destruct (Hrun _ _ ltac:(discriminate) Hprep) as [Hrun' _].
  eexists. split; [exact Hrun'|].
  repeat split; vm_compute; reflexivity.
Defined.

(** ** What order creation does to the product collection *)

(** In every outcome the products [createOrder] leaves behind are those its
    loop leaves behind. *)
Lemma createOrder_products (env : Env) (req : CreateOrderReq.t) (db : DB) :
  products (createOrder env req db).1
  = (processItems (CreateOrderReq.items req) (products db) [] 0%Q).1.
Proof.
  rewrite createOrder_run.
  destruct (CreateOrderReq.items req) as [|i items] eqn:Hitems; [reflexivity|].
  rewrite <- Hitems, <- (prepareOrder_products env).
  destruct (prepareOrder env req (products db)) as [ps [e|doc]]; reflexivity.
Qed.

(** A property of the collection that every iteration keeps is kept by the
    loop, whether it runs to its end or returns early. *)
Lemma processItems_invariant (P : gmap string Product.t -> Prop) :
  (forall ps item, P ps -> P (orderLine ps item).1) ->
  forall (items : list Item.t) (ps : gmap string Product.t)
         (acc : list OrderItem.t) (price : Q),
    P ps -> P (processItems items ps acc price).1.
Proof.
  intros Hstep. induction items as [|item rest IH]; intros ps acc price HP; simpl.
  - exact HP.
  - pose proof (Hstep ps item HP) as H1.
    destruct (orderLine ps item) as [ps1 [e|line]]; simpl in *; [exact H1|].
    apply IH. exact H1.
Qed.

Lemma adjustVariantStock_nonneg (sku : string) (q : Z) (vs : list Variant.t)
    (v : Variant.t) :
  Forall (fun v => 0 <= Variant.stock v) vs ->
  List.find (fun v => String.eqb (Variant.sku v) sku) vs = Some v ->
  q <= Variant.stock v ->
  Forall (fun v => 0 <= Variant.stock v) (Product.adjustVariantStock sku (- q) vs).
Proof.
  induction 1 as [|w vs Hw Hvs IH]; simpl; [constructor|].
  destruct (String.eqb (Variant.sku w) sku).
  - intros [= ->] Hq. constructor; [simpl; lia | exact Hvs].
  - intros Hf Hq. constructor; [exact Hw | apply IH; assumption].
Qed.

Lemma orderLine_stock_nonneg (ps : gmap string Product.t) (item : Item.t) :
  (forall id p, ps !! id = Some p -> stock_nonneg p) ->
  forall id p, (orderLine ps item).1 !! id = Some p -> stock_nonneg p.
Proof.
  intros Hall. unfold orderLine.
  destruct (ps !! Item.product item) as [product|] eqn:Hp; [|exact Hall].
  destruct (negb (Product.isActive product)); [exact Hall|].
  destruct (resolveOrderLine product item) as [e|[[a v] s]] eqn:Hres;
    [exact Hall|].
  destruct (a <? Item.quantity item) eqn:Hq; [exact Hall|].
  apply Z.ltb_ge in Hq. cbn [fst].
  intros id p. rewrite lookup_insert. case_decide; [|apply Hall].
  intros [= <-]. destruct (Hall _ _ Hp) as [Hs Hvs].
  unfold resolveOrderLine in Hres. unfold reduceStock, stock_nonneg.
  destruct (Item.variant item) as [sel|]; simpl.
  - split; [exact Hs|].
    destruct (0 <? Z.of_nat (length (Product.variants product))) eqn:Hn.
    + destruct (Product.findVariant (VariantSel.sku sel) product)
        as [variant|] eqn:Hf; [|discriminate].
      injection Hres as <- _ _.
      eapply adjustVariantStock_nonneg; eauto.
    + destruct (Product.variants product); [constructor|].
      apply Z.ltb_ge in Hn. simpl length in Hn. lia.
  - injection Hres as <- _ _. split; [lia | exact Hvs].
Qed.

(** X3: [createOrder] never drives a stock counter below zero: if no
    product and no variant of the collection has a negative stock before the
    request, none has one after it, whether the request succeeds or fails
    part-way. *)
Theorem createOrder_stock_nonneg (env : Env) (req : CreateOrderReq.t) (db : DB) :
  (forall id p, products db !! id = Some p -> stock_nonneg p) ->
  forall id p,
    products (createOrder env req db).1 !! id = Some p -> stock_nonneg p.
Proof.
  intros Hall. rewrite createOrder_products.
  apply (processItems_invariant
           (fun ps => forall id p, ps !! id = Some p -> stock_nonneg p));
    [|exact Hall].
  intros ps item. apply orderLine_stock_nonneg.
Qed.

Lemma same_listing_refl (p : Product.t) : same_listing p p.
Proof. repeat split. Qed.

Lemma same_listing_trans (p q r : Product.t) :
  same_listing p q -> same_listing q r -> same_listing p r.
Proof.
  unfold same_listing.
  intros (?&?&?&?&?&?&?&?&?&?) (?&?&?&?&?&?&?&?&?&?).
  repeat split; congruence.
Qed.

Lemma adjustVariantStock_listing (sku : string) (d : Z) (vs : list Variant.t) :
  List.map Variant.sku (Product.adjustVariantStock sku d vs)
  = List.map Variant.sku vs
  /\ List.map Variant.price (Product.adjustVariantStock sku d vs)
     = List.map Variant.price vs.
Proof.
  induction vs as [|v vs [IH1 IH2]]; simpl; [split; reflexivity|].
  destruct (String.eqb (Variant.sku v) sku); simpl; [split; reflexivity|].
  rewrite IH1, IH2. split; reflexivity.
Qed.

Lemma reduceStock_listing (p : Product.t) (item : Item.t) :
  same_listing p (reduceStock p item).
Proof.
  unfold reduceStock, same_listing.
  destruct (Item.variant item) as [sel|]; simpl; repeat split;
    apply adjustVariantStock_listing.
Qed.

Lemma orderLine_listing (ps : gmap string Product.t) (item : Item.t) (id : string) :
  option_Forall2 same_listing (ps !! id) ((orderLine ps item).1 !! id).
Proof.
  assert (Hrefl : option_Forall2 same_listing (ps !! id) (ps !! id)).
  { destruct (ps !! id); constructor. apply same_listing_refl. }
  unfold orderLine.
  destruct (ps !! Item.product item) as [product|] eqn:Hp; [|exact Hrefl].
  destruct (negb (Product.isActive product)); [exact Hrefl|].
  destruct (resolveOrderLine product item) as [e|[[a v] s]]; [exact Hrefl|].
  destruct (a <? Item.quantity item); [exact Hrefl|].
  cbn [fst]. rewrite lookup_insert. case_decide; [|exact Hrefl].
  subst id. rewrite Hp. constructor. apply reduceStock_listing.
Qed.

(** X4: [createOrder] touches nothing of the catalog but stock counters and
    sold counts: in every outcome the collection has the same products as
    before, each with the name, sku, price, active flag and sale fields it
    had, and with variants of the same skus and prices. *)
Theorem createOrder_keeps_listing (env : Env) (req : CreateOrderReq.t) (db : DB)
    (id : string) :
  option_Forall2 same_listing
    (products db !! id) (products (createOrder env req db).1 !! id).
Proof.
  rewrite createOrder_products.
  apply (processItems_invariant
           (fun ps => option_Forall2 same_listing (products db !! id) (ps !! id))).
  - intros ps item H.
    pose proof (orderLine_listing ps item id) as H'.
    destruct H; inversion H'; subst; constructor.
    eapply same_listing_trans; eauto.
  - destruct (products db !! id); constructor. apply same_listing_refl.
Qed.

Lemma sample_catalog_stock_nonneg :
  forall id p, Sample.catalog !! id = Some p -> stock_nonneg p.
Proof.
  unfold Sample.catalog.
  repeat apply map_Forall_insert_2; try apply map_Forall_empty;
    (split; [simpl; lia | repeat constructor; simpl; lia]).
Qed.

Lemma createOrder_stock_nonneg_witness :
  exists p,
    products
      (createOrder Sample.env
         (Sample.request [Sample.line "p1" 5; Sample.line "p2" 10] None)
         Sample.db).1 !! "p1" = Some p
    /\ Product.stock p = 0
    /\ stock_nonneg p.
Proof.
  eexists. split; [vm_compute; reflexivity|]. split; [reflexivity|].
  apply (createOrder_stock_nonneg Sample.env
           (Sample.request [Sample.line "p1" 5; Sample.line "p2" 10] None)
           Sample.db sample_catalog_stock_nonneg "p1").
  vm_compute. reflexivity.
Defined.

(** The sold count and the product-level stock after one iteration that
    pushed a line. *)
Lemma orderLine_accounting (ps ps' : gmap string Product.t) (item : Item.t)
    (line : OrderItem.t) (id : string) (p : Product.t) :
  orderLine ps item = (ps', inr line) ->
  ps !! id = Some p ->
  exists p',
    ps' !! id = Some p'
    /\ Product.soldCount p' = Product.soldCount p + unitsOf id [line]
    /\ Product.stock p' = Product.stock p - plainUnitsOf id [line].
Proof.
  unfold orderLine.
  destruct (ps !! Item.product item) as [product|] eqn:Hp; [|discriminate].
  destruct (negb (Product.isActive product)); [discriminate|].
  destruct (resolveOrderLine product item) as [e|[[a v] s]]; [discriminate|].
  destruct (a <? Item.quantity item); [discriminate|].
  intros [= <- <-] Hid. unfold unitsOf, plainUnitsOf. cbn.
  rewrite lookup_insert. case_decide as Hk.
  - subst id. rewrite String.eqb_refl. rewrite Hp in Hid. injection Hid as <-.
    eexists. split; [reflexivity|]. unfold reduceStock.
    destruct (Item.variant item); simpl; lia.
  - apply String.eqb_neq in Hk. rewrite Hk.
    exists p. split; [exact Hid|].
    destruct (Item.variant item); simpl; lia.
Qed.

Lemma unitsOf_cons (id : string) (line : OrderItem.t) (lines : list OrderItem.t) :
  unitsOf id (line :: lines) = unitsOf id [line] + unitsOf id lines
  /\ plainUnitsOf id (line :: lines)
     = plainUnitsOf id [line] + plainUnitsOf id lines.
Proof.
  unfold unitsOf, plainUnitsOf. simpl.
  destruct (OrderItem.variant line), (String.eqb (OrderItem.product line) id);
    split; lia.
Qed.

Lemma processItems_accounting (items : list Item.t) :
  forall (ps ps' : gmap string Product.t) (acc acc' : list OrderItem.t)
         (price price' : Q) (id : string) (p : Product.t),
    processItems items ps acc price = (ps', inr (acc', price')) ->
    ps !! id = Some p ->
    exists lines p',
      acc' = (acc ++ lines)%list
      /\ ps' !! id = Some p'
      /\ Product.soldCount p' = Product.soldCount p + unitsOf id lines
      /\ Product.stock p' = Product.stock p - plainUnitsOf id lines.
Proof.
  induction items as [|item rest IH];
    intros ps ps' acc acc' price price' id p; simpl.
  - intros [= <- <- _] Hid. exists [], p. rewrite app_nil_r.
    repeat split; [exact Hid | simpl; lia | simpl; lia].
  - destruct (orderLine ps item) as [ps1 [e|line]] eqn:Hline; [discriminate|].
    intros Hrest Hid.
    destruct (orderLine_accounting _ _ _ _ id p Hline Hid) as (p1 & Hid1 & Hs1 & Hk1).
    destruct (IH _ _ _ _ _ _ id p1 Hrest Hid1) as (lines & p' & -> & Hid' & Hs & Hk).
    exists (line :: lines), p'. rewrite <- app_assoc.
    destruct (unitsOf_cons id line lines) as [Hu Hpu].
    repeat split; [exact Hid' | lia | lia].
Qed.

(** X5: when every line of a request passes, every product of the
    collection is left with its soldCount raised by the units ordered of it
    (all lines naming it) and its product-level stock lowered by the units
    of the lines naming it without a variant; a line with a variant leaves
    the product-level stock as it is. A request with at least one line is
    nevertheless answered from the catch block, without an order. *)
Theorem createOrder_accounting (env : Env) (req : CreateOrderReq.t) (db : DB)
    (ps' : gmap string Product.t) (doc : NewOrder.t) (id : string)
    (p : Product.t) :
  prepareOrder env req (products db) = (ps', inr doc) ->
  products db !! id = Some p ->
  (exists p',
     products (createOrder env req db).1 !! id = Some p'
     /\ Product.soldCount p'
        = Product.soldCount p + unitsOf id (NewOrder.items doc)
     /\ Product.stock p'
        = Product.stock p - plainUnitsOf id (NewOrder.items doc))
  /\ (CreateOrderReq.items req <> [] ->
      (createOrder env req db).2 = inl SaveFailed).
Proof.
  intros Hprep Hid. split.
  - rewrite createOrder_products.
    apply prepareOrder_inv in Hprep as (Hloop & _).
    destruct (processItems_accounting _ _ _ _ _ _ _ id p Hloop Hid)
      as (lines & p' & Hitems & Hid' & Hs & Hk).
    simpl in Hitems. subst lines. rewrite Hloop. exists p'. auto.
  - intros Hne. rewrite createOrder_run, Hprep.
    destruct (CreateOrderReq.items req); [contradiction | reflexivity].
Qed.

Lemma createOrder_accounting_witness :
  exists p',
    products
      (createOrder Sample.env
         (Sample.request
            [ Sample.line "p1" 2;
              {| Item.product := "p5";
                 Item.variant := Some (Sample.sel "SHIRT-S");
                 Item.quantity := 1 |} ] None)
         Sample.db).1 !! "p5" = Some p'
    /\ Product.soldCount p' = 1
    /\ Product.stock p' = Product.stock Sample.shirt.
Proof.
  eassert (Hprep : prepareOrder Sample.env
                     (Sample.request
                        [ Sample.line "p1" 2;
                          {| Item.product := "p5";
                             Item.variant := Some (Sample.sel "SHIRT-S");
                             Item.quantity := 1 |} ] None)
                     (products Sample.db) = (_, inr _))
    by (vm_compute; reflexivity).
  destruct (createOrder_accounting _ _ _ _ _ "p5" Sample.shirt Hprep)
    as ((p' & Hid & Hs & Hk) & _).
  - vm_compute. reflexivity.
  - exists p'. split; [exact Hid|]. split; [exact Hs | exact Hk].
Defined.

(** ** More on cancelling and on status updates *)

(** What a successful [cancelOrder] found and what it left behind. *)
Lemma cancelOrder_inv (env : Env) (id : string) (reason : option string)
    (db db1 : DB) :
  cancelOrder env id reason db = (db1, inr tt) ->
  exists order order',
    orders db !! id = Some order
    /\ Order.user order = user env
    /\ (Order.orderStatus order = "pending" \/ Order.orderStatus order = "confirmed")
    /\ db1 = {| products := fold_left restoreLine (Order.items order) (products db);
                orders := <[id := order']> (orders db) |}
    /\ Order.orderStatus order' = "cancelled"
    /\ Order.user order' = Order.user order
    /\ Order.items order' = Order.items order
    /\ Order.cancelledAt order' = Some (now env)
    /\ Order.cancelledReason order' = reason.
Proof.
  intros H. unfold cancelOrder in H.
  destruct (orders db !! id) as [order|] eqn:Hfound; [|discriminate].
  destruct (String.eqb (Order.user order) (user env)) eqn:Hu;
    cbn [negb] in H; [|discriminate].
  apply String.eqb_eq in Hu.
  destruct (existsb (String.eqb (Order.orderStatus order)) ["pending"; "confirmed"])
    eqn:Hex; cbn [negb] in H; [|discriminate].
  apply existsb_eqb_In in Hex.
  assert (Hst : Order.orderStatus order = "pending"
                \/ Order.orderStatus order = "confirmed").
  { simpl in Hex. destruct Hex as [E | [E | []]]; auto. }
  unfold Order.save, Order.cancelOrder, Order.preSave in H.
  cbn [Order.orderStatus Order.set_cancelled Order.set_orderStatus] in H.
  change (existsb (String.eqb "cancelled") Order.statuses) with true in H.
  assert (Hne : String.eqb "cancelled" (Order.orderStatus order) = false).
  { apply String.eqb_neq. destruct Hst as [-> | ->]; discriminate. }
  rewrite Hne in H. cbn [negb] in H. cbv iota in H.
  injection H as <-.
  eexists order, _. split; [reflexivity|]. split; [exact Hu|].
  split; [exact Hst|]. split; [reflexivity|]. repeat split.
Qed.



(** X7: [cancelOrder] fails closed: whenever it answers with a failure,
    products and orders are exactly as before; an id that names no order
    and an order of another user are both answered with OrderNotFound. *)
Theorem cancelOrder_fails_closed (env : Env) (id : string)
    (reason : option string) (db : DB) :
  (forall db' e, cancelOrder env id reason db = (db', inl e) -> db' = db)
  /\ (orders db !! id = None ->
      cancelOrder env id reason db = (db, inl OrderNotFound))
  /\ (forall order, orders db !! id = Some order ->
        Order.user order <> user env ->
        cancelOrder env id reason db = (db, inl OrderNotFound)).
Proof.
  split; [|split].
  - intros db' e. unfold cancelOrder.
    destruct (orders db !! id) as [order|]; [|congruence].
    destruct (negb (String.eqb (Order.user order) (user env))); [congruence|].
    destruct (negb (existsb _ _)); [congruence|].
    destruct (Order.save _ _ _); [discriminate | congruence].
  - intros Hnone. unfold cancelOrder. rewrite Hnone. reflexivity.
  - intros order Hfound Hne. unfold cancelOrder. rewrite Hfound.
    apply String.eqb_neq in Hne. rewrite Hne. reflexivity.
Qed.

(** What [updateOrderStatus] does with a status of the enum. *)
Lemma updateOrderStatus_run (env : Env) (id : string) (req : UpdateStatusReq.t)
    (db : DB) (order : Order.t) :
  orders db !! id = Some order ->
  In (UpdateStatusReq.status req) Order.statuses ->
  exists order',
    updateOrderStatus env id req db
    = ({| products := products db; orders := <[id := order']> (orders db) |},
       inr order')
    /\ Order.orderStatus order' = UpdateStatusReq.status req
    /\ Order.items order' = Order.items order
    /\ Order.totalPrice order' = Order.totalPrice order
    /\ Order.user order' = Order.user order
    /\ Order.deliveredAt order'
       = if String.eqb (UpdateStatusReq.status req) "delivered"
         then Some (now env) else Order.deliveredAt order.
Proof.
  intros Hfound Hin. unfold updateOrderStatus. rewrite Hfound.
  unfold Order.save.
  cbn [Order.orderStatus Order.set_shipping Order.set_orderStatus].
  apply existsb_eqb_In in Hin. rewrite Hin.
  eexists. split; [reflexivity|].
  unfold Order.preSave.
  cbn [Order.orderStatus Order.set_shipping Order.set_orderStatus].
  destruct (negb (String.eqb (UpdateStatusReq.status req) (Order.orderStatus order)));
    repeat split.
Qed.

(** X8: [updateOrderStatus] has no transition table: for a stored order in
    any state, every status of the enum is accepted (a delivered or
    cancelled order can be set back to pending). The update leaves the
    products, the order's items, total and owner as they are, and stamps
    deliveredAt with the current time exactly when the new status is
    delivered. *)
Theorem updateOrderStatus_any_transition (env : Env) (id : string)
    (req : UpdateStatusReq.t) (db : DB) (order : Order.t) :
  orders db !! id = Some order ->
  In (UpdateStatusReq.status req) Order.statuses ->
  exists order',
    updateOrderStatus env id req db
    = ({| products := products db; orders := <[id := order']> (orders db) |},
       inr order')
    /\ Order.orderStatus order' = UpdateStatusReq.status req
    /\ Order.items order' = Order.items order
    /\ Order.totalPrice order' = Order.totalPrice order
    /\ Order.user order' = Order.user order
    /\ Order.deliveredAt order'
       = if String.eqb (UpdateStatusReq.status req) "delivered"
         then Some (now env) else Order.deliveredAt order.
Proof. apply updateOrderStatus_run. Qed.

Lemma updateOrderStatus_any_transition_witness :
  exists order order',
    orders Sample.confirmed !! "o1" = Some order
    /\ Order.orderStatus order = "confirmed"
    /\ (updateOrderStatus Sample.env "o1"
          {| UpdateStatusReq.status := "pending";
             UpdateStatusReq.trackingNumber := None;
             UpdateStatusReq.carrier := None |} Sample.confirmed).2 = inr order'
    /\ Order.orderStatus order' = "pending".
Proof.
  eassert (Hfound : orders Sample.confirmed !! "o1" = Some _)
    by (vm_compute; reflexivity).
  destruct (updateOrderStatus_any_transition Sample.env "o1"
              {| UpdateStatusReq.status := "pending";
                 UpdateStatusReq.trackingNumber := None;
                 UpdateStatusReq.carrier := None |} Sample.confirmed _ Hfound)
    as (order' & Hrun & Hs & _).
  - simpl. auto.
  - eexists _, order'. split; [exact Hfound|]. split; [reflexivity|].
    split; [rewrite Hrun; reflexivity | exact Hs].
Defined.

(** X9: nothing ties the stock restoration to the order having been
    restored before: when a cancelled order is set back to pending or
    confirmed by a status update, its owner can cancel it again, and the
    restore loop runs a second time over the same items, lowering soldCount
    and raising the stock of the matched variants once more. *)
Theorem cancel_reopen_cancel (env admin env2 : Env) (id : string)
    (reason reason2 : option string) (req : UpdateStatusReq.t) (db db1 : DB) :
  cancelOrder env id reason db = (db1, inr tt) ->
  UpdateStatusReq.status req = "pending"
  \/ UpdateStatusReq.status req = "confirmed" ->
  user env2 = user env ->
  exists order db2 o2 db3,
    orders db !! id = Some order
    /\ updateOrderStatus admin id req db1 = (db2, inr o2)
    /\ cancelOrder env2 id reason2 db2 = (db3, inr tt)
    /\ products db3
       = fold_left restoreLine (Order.items order)
           (fold_left restoreLine (Order.items order) (products db)).
Proof.
  intros H Hreq Huser.
  apply cancelOrder_inv in H
    as (order & order' & Hfound & Hu & _ & -> & Hs & Hu' & Hi & _).
  set (db1 := {| products := fold_left restoreLine (Order.items order) (products db);
                 orders := <[id := order']> (orders db) |}).
  assert (Hfound1 : orders db1 !! id = Some order') by apply lookup_insert_eq.
  destruct (updateOrderStatus_run admin id req db1 order' Hfound1)
    as (o2 & Hrun & Hs2 & Hi2 & _ & Hu2 & _).
  { destruct Hreq as [-> | ->]; simpl; auto. }
  set (db2 := {| products := products db1; orders := <[id := o2]> (orders db1) |})
    in Hrun.
  assert (Hfound2 : orders db2 !! id = Some o2) by apply lookup_insert_eq.
  destruct (cancelOrder_accepted env2 db2 id o2 Hfound2 reason2)
    as (o3 & Hrun3 & _).
  { congruence. }
  { rewrite Hs2. exact Hreq. }
  eexists order, db2, o2, _. split; [exact Hfound|]. split; [exact Hrun|].
  split; [exact Hrun3|]. cbn [products db2 db1]. rewrite Hi2, Hi. reflexivity.
Qed.

Lemma cancel_reopen_cancel_witness :
  exists db1 db2 db3 p q,
    cancelOrder Sample.env "o1" None Sample.placed = (db1, inr tt)
    /\ (updateOrderStatus Sample.env "o1"
          {| UpdateStatusReq.status := "pending";
             UpdateStatusReq.trackingNumber := None;
             UpdateStatusReq.carrier := None |} db1).1 = db2
    /\ cancelOrder Sample.env "o1" None db2 = (db3, inr tt)
    /\ products db3 !! "p1" = Some p
    /\ Product.soldCount p = -2
    /\ Product.stock p = 3
    /\ products db3 !! "p5" = Some q
    /\ Variant.stock <$> Product.variants q !! 0%nat = Some 5.
Proof.
  eassert (H1 : cancelOrder Sample.env "o1" None Sample.placed = (_, inr tt))
    by (vm_compute; reflexivity).
  destruct (cancel_reopen_cancel Sample.env Sample.env Sample.env "o1" None None
              {| UpdateStatusReq.status := "pending";
                 UpdateStatusReq.trackingNumber := None;
                 UpdateStatusReq.carrier := None |} _ _ H1)
    as (order & db2 & o2 & db3 & Hfound & H2 & H3 & Hps).
  - left. reflexivity.
  - reflexivity.
  - eexists _, db2, db3, _, _. split; [exact H1|].
    split; [rewrite H2; reflexivity|]. split; [exact H3|].
    rewrite Hps.
    assert (Ho : orders Sample.placed !! "o1" = Some order) by exact Hfound.
    vm_compute in Ho. injection Ho as <-.
    split; [vm_compute; reflexivity|].
    split; [reflexivity|]. split; [reflexivity|].
    split; [vm_compute; reflexivity|]. reflexivity.
Defined.

(** ** Reading the cart *)

(** X10: [getCart] prices nothing: the populated product carries no
    [isActive], so the loop skips every line. For a user with a stored cart
    the cart collection is left as it is, the response carries the lines as
    they are stored, and the summary is that of an empty purchase (subtotal
    0, no items, no tax, shipping 10, total 10), whatever the cart holds. *)
Theorem getCart_skips_lines (env : Env) (ps : gmap string Product.t)
    (carts : gmap string Cart.t) (cart : Cart.t) :
  carts !! user env = Some cart ->
  exists summary,
    getCart env ps carts = (carts, (Cart.items cart, summary))
    /\ Summary.subtotal summary = 0%Q
    /\ Summary.totalItems summary = 0
    /\ Summary.shipping summary = 10%Q
    /\ (Summary.tax summary == 0)%Q
    /\ (Summary.total summary == 10)%Q.
Proof.
  intros Hcart. rewrite getCart_run, Hcart. cbn [default].
  rewrite (insert_id _ _ _ Hcart).
  eexists. split; [reflexivity|]. repeat split; reflexivity.
Qed.

Lemma getCart_skips_lines_witness :
  exists summary,
    getCart Sample.env Sample.catalog
      (Sample.cartOf
         [ {| CartItem.product := "p1"; CartItem.quantity := 2;
              CartItem.variant := None; CartItem.price := 100;
              CartItem.total := 200; CartItem.inStock := true |} ])
    = (Sample.cartOf
         [ {| CartItem.product := "p1"; CartItem.quantity := 2;
              CartItem.variant := None; CartItem.price := 100;
              CartItem.total := 200; CartItem.inStock := true |} ],
       ([ {| CartItem.product := "p1"; CartItem.quantity := 2;
             CartItem.variant := None; CartItem.price := 100;
             CartItem.total := 200; CartItem.inStock := true |} ],
        summary))
    /\ Summary.subtotal summary = 0%Q
    /\ (Summary.total summary == 10)%Q.
Proof.
  destruct (getCart_skips_lines Sample.env Sample.catalog
              (Sample.cartOf
                 [ {| CartItem.product := "p1"; CartItem.quantity := 2;
                      CartItem.variant := None; CartItem.price := 100;
                      CartItem.total := 200; CartItem.inStock := true |} ])
              {| Cart.items :=
                   [ {| CartItem.product := "p1"; CartItem.quantity := 2;
                        CartItem.variant := None; CartItem.price := 100;
                        CartItem.total := 200; CartItem.inStock := true |} ];
                 Cart.coupon := None |})
    as (summary & Hrun & Hsub & _ & _ & _ & Htotal).
  - reflexivity.
  - exists summary. split; [exact Hrun|]. split; [exact Hsub | exact Htotal].
Defined.

(** X12: a user without a cart, or with an empty one, is shown a total of
    10: the cart is stored empty and the summary has subtotal 0, no items,
    no tax, and the flat shipping fee. *)
Theorem getCart_empty (env : Env) (ps : gmap string Product.t)
    (carts : gmap string Cart.t) :
  (carts !! user env = None
   \/ exists cart, carts !! user env = Some cart /\ Cart.items cart = []) ->
  exists cart' summary,
    getCart env ps carts = (<[user env := cart']> carts, ([], summary))
    /\ Cart.items cart' = []
    /\ Summary.subtotal summary = 0%Q
    /\ Summary.totalItems summary = 0
    /\ Summary.shipping summary = 10%Q
    /\ (Summary.tax summary == 0)%Q
    /\ (Summary.total summary == 10)%Q.
Proof.
  intros [Hnone | (cart & Hcart & Hitems)]; unfold getCart.
  - rewrite Hnone. simpl. eexists _, _. split; [reflexivity|].
    repeat split; reflexivity.
  - rewrite Hcart, Hitems. simpl. eexists _, _. split; [reflexivity|].
    repeat split; reflexivity.
Qed.

Lemma getCart_empty_witness :
  exists carts' summary,
    getCart Sample.env Sample.catalog ∅ = (carts', ([], summary))
    /\ (Summary.total summary == 10)%Q.
Proof.
  destruct (getCart_empty Sample.env Sample.catalog ∅) as (cart' & summary & H).
  - left. reflexivity.
  - eexists _, summary. split; [apply H | apply H].
Defined.

(** ** Adding to the cart *)

Lemma findIndex_Some {A : Type} (f : A -> bool) (l : list A) (i : nat) :
  findIndex f l = Some i ->
  exists x,
    l !! i = Some x /\ f x = true
    /\ forall j y, (j < i)%nat -> l !! j = Some y -> f y = false.
Proof.
  revert i. induction l as [|x l IH]; intros i; simpl; [discriminate|].
  destruct (f x) eqn:Hf.
  - intros [= <-]. exists x. split; [reflexivity|]. split; [exact Hf|].
    intros j y Hj. lia.
  - destruct (findIndex f l) as [k|]; [|discriminate].
    intros [= <-]. destruct (IH k eq_refl) as (y & Hy & Hfy & Hfirst).
    exists y. split; [exact Hy|]. split; [exact Hfy|].
    intros [|j] z Hj Hz.
    + simpl in Hz. injection Hz as <-. exact Hf.
    + simpl in Hz. apply (Hfirst j z); [lia | exact Hz].
Qed.

Lemma findIndex_None {A : Type} (f : A -> bool) (l : list A) :
  findIndex f l = None -> Forall (fun x => f x = false) l.
Proof.
  induction l as [|x l IH]; simpl; [constructor|].
  destruct (f x) eqn:Hf; [discriminate|].
  destruct (findIndex f l); [discriminate|].
  intros _. constructor; [exact Hf | apply IH; reflexivity].
Qed.

Lemma resolveAddToCart_ok (product : Product.t) (variant : option VariantSel.t)
    (a : Z) (v : Q) (s : string) :
  resolveAddToCart product variant = inr (a, v, s) ->
  a = availableStock product variant /\ v = regularPrice product variant.
Proof.
  unfold resolveAddToCart, availableStock, regularPrice.
  destruct variant as [sel|]; [|intros [= <- <- _]; split; reflexivity].
  destruct (0 <? Z.of_nat (length (Product.variants product))) eqn:Hn.
  - destruct (Product.findVariant (VariantSel.sku sel) product); [|discriminate].
    intros [= <- <- _]. split; reflexivity.
  - rewrite (findVariant_no_variants _ _ Hn). intros [= <- <- _].
    split; reflexivity.
Qed.

(** The callback of [findIndex] holds of a line only when the request
    carries a variant and the line was stored with the same product and the
    same sku. *)
Lemma sameCartLine_true (productId : string) (variant : option VariantSel.t)
    (item : CartItem.t) :
  sameCartLine productId variant item = true ->
  exists sel,
    variant = Some sel
    /\ CartItem.product item = productId
    /\ storedSku (CartItem.variant item) = Some (VariantSel.sku sel).
Proof.
  unfold sameCartLine.
  destruct (String.eqb (CartItem.product item) productId) eqn:E;
    simpl; [|discriminate].
  apply String.eqb_eq in E.
  destruct variant as [sel|]; [|discriminate].
  intros H. apply bool_decide_eq_true in H. exists sel. auto.
Qed.

(** X15: a failed [addToCart] writes no line. Every failure that the
    handler answers itself (unknown or inactive product, unmatched variant,
    not enough stock for the quantity or for the merged quantity) leaves the
    cart collection as it was. When [cart.save()] throws, as it does for
    every added quantity below 1 on a request without a variant, the answer
    is status 500 and the collection is as it was but for the empty cart
    that [Cart.create] stored for a caller who had none. *)
Theorem addToCart_fails_closed (env : Env) (req : AddToCartReq.t)
    (ps : gmap string Product.t) (carts : gmap string Cart.t) :
  (forall carts' e,
      addToCart env req ps carts = (carts', inl e) ->
      (e <> CartSaveFailed -> carts' = carts)
      /\ (e = CartSaveFailed ->
          carts' = <[user env := cartOfUser env carts]> carts
          /\ Cart.items (cartOfUser env carts)
             = match carts !! user env with
               | Some cart => Cart.items cart
               | None => []
               end))
  /\ (forall product,
        ps !! AddToCartReq.productId req = Some product ->
        Product.isActive product = true ->
        AddToCartReq.variant req = None ->
        default 1 (AddToCartReq.quantity req) < 1 ->
        default 1 (AddToCartReq.quantity req) <= Product.stock product ->
        addToCart env req ps carts
        = (<[user env := cartOfUser env carts]> carts, inl CartSaveFailed)).
Proof.
  split.
  - intros carts' e. unfold addToCart, cartOfUser.
    destruct (ps !! AddToCartReq.productId req) as [product|];
      [|intros [= <- <-]; split; [reflexivity | discriminate]].
    destruct (negb (Product.isActive product));
      [intros [= <- <-]; split; [reflexivity | discriminate]|].
    destruct (resolveAddToCart product (AddToCartReq.variant req))
      as [e'|[[a v] s]] eqn:Hres.
    { intros [= <- <-]. split; [reflexivity|].
      intros ->. unfold resolveAddToCart in Hres.
      destruct (AddToCartReq.variant req); [|discriminate].
      destruct (0 <? _); [|discriminate].
      destruct (Product.findVariant _ _); discriminate. }
    destruct (a <? default 1 (AddToCartReq.quantity req));
      [intros [= <- <-]; split; [reflexivity | discriminate]|].
    destruct (carts !! user env) as [cart|] eqn:Hcart; cbn [default].
    + destruct (findIndex _ (Cart.items cart)) as [i|].
      * destruct (Cart.items cart !! i) as [existing|]; [|discriminate].
        destruct (a <? _);
          [intros [= <- <-]; split; [reflexivity | discriminate]|].
        destruct (cartItemValid _); [discriminate|].
        intros [= <- <-]. split; [congruence|]. intros _.
        split; [symmetry; apply insert_id; exact Hcart | reflexivity].
      * destruct (cartItemValid _); [discriminate|].
        intros [= <- <-]. split; [congruence|]. intros _.
        split; [symmetry; apply insert_id; exact Hcart | reflexivity].
    + simpl.
      destruct (cartItemValid _); [discriminate|].
      intros [= <- <-]. split; [congruence|]. intros _. split; reflexivity.
  - intros product Hp Hact Hvar Hq Hstock. unfold addToCart, cartOfUser.
    rewrite Hp, Hact, Hvar. simpl negb. cbv iota.
    cbn [resolveAddToCart].
    replace (Product.stock product <? default 1 (AddToCartReq.quantity req))
      with false by (symmetry; apply Z.ltb_ge; lia).
    assert (Hinvalid : forall item,
               CartItem.quantity item = default 1 (AddToCartReq.quantity req) ->
               cartItemValid item = false).
    { intros item Hi. unfold cartItemValid. rewrite Hi.
      replace (1 <=? default 1 (AddToCartReq.quantity req)) with false
        by (symmetry; apply Z.leb_gt; lia).
      reflexivity. }
    destruct (carts !! user env) as [cart|] eqn:Hcart; cbn [default].
    + assert (Hidx : findIndex
                       (sameCartLine (AddToCartReq.productId req) None)
                       (Cart.items cart) = None).
      { induction (Cart.items cart) as [|x l IH]; simpl; [reflexivity|].
        unfold sameCartLine at 1.
        destruct (negb _); rewrite IH; reflexivity. }
      rewrite Hidx, Hinvalid by reflexivity.
      rewrite (insert_id _ _ _ Hcart). reflexivity.
    + simpl. rewrite Hinvalid by reflexivity. reflexivity.
Qed.

Lemma addToCart_fails_closed_witness :
  (exists carts' e,
     addToCart Sample.env
       {| AddToCartReq.productId := "p2"; AddToCartReq.quantity := Some 3;
          AddToCartReq.variant := None |}
       Sample.catalog (Sample.cartOf []) = (carts', inl e)
     /\ e = OnlyAvailable 2
     /\ carts' = Sample.cartOf [])
  /\ addToCart Sample.env
       {| AddToCartReq.productId := "p2"; AddToCartReq.quantity := Some 0;
          AddToCartReq.variant := None |}
       Sample.catalog ∅
     = (Sample.cartOf [], inl CartSaveFailed).
Proof.
  split.
  - eassert (Hrun : addToCart Sample.env
                      {| AddToCartReq.productId := "p2";
                         AddToCartReq.quantity := Some 3;
                         AddToCartReq.variant := None |}
                      Sample.catalog (Sample.cartOf []) = (_, inl _))
      by (vm_compute; reflexivity).
    destruct (proj1 (addToCart_fails_closed Sample.env _ _ _) _ _ Hrun)
      as [Hsame _].
    eexists _, _. split; [exact Hrun|]. split; [reflexivity|].
    apply Hsame. discriminate.
  - rewrite (proj2 (addToCart_fails_closed Sample.env
                      {| AddToCartReq.productId := "p2";
                         AddToCartReq.quantity := Some 0;
                         AddToCartReq.variant := None |}
                      Sample.catalog ∅) Sample.gadget);
      try reflexivity; simpl; lia.
Defined.

(** X16: a successful [addToCart] does one of two things to the caller's
    cart and leaves its coupon and every other cart alone. When the request
    carries a variant and the cart has a line of the same product stored
    with the same variant sku, the first such line has its quantity raised
    by the added quantity, every other line and field staying as it is.
    Otherwise one line is appended, priced at the regular price (the
    matched variant's, else the product's; the sale price plays no part
    here) and totalled at price times quantity. Either way the quantity the
    line ends with is at least 1 and does not exceed the available stock.
    A request without a variant always appends: adding a product twice
    gives two lines. *)
Theorem addToCart_success (env : Env) (req : AddToCartReq.t)
    (ps : gmap string Product.t) (carts carts' : gmap string Cart.t)
    (cart' : Cart.t) :
  addToCart env req ps carts = (carts', inr cart') ->
  let quantity := default 1 (AddToCartReq.quantity req) in
  let old := Cart.items (cartOfUser env carts) in
  exists product,
    ps !! AddToCartReq.productId req = Some product
    /\ Product.isActive product = true
    /\ carts' = <[user env := cart']> carts
    /\ Cart.coupon cart' = Cart.coupon (cartOfUser env carts)
    /\ ((exists i existing sel,
           AddToCartReq.variant req = Some sel
           /\ old !! i = Some existing
           /\ CartItem.product existing = AddToCartReq.productId req
           /\ storedSku (CartItem.variant existing) = Some (VariantSel.sku sel)
           /\ (forall j x, (j < i)%nat -> old !! j = Some x ->
                 sameCartLine (AddToCartReq.productId req) (Some sel) x = false)
           /\ Cart.items cart'
              = <[i := CartItem.set_quantity
                         (CartItem.quantity existing + quantity) existing]> old
           /\ 1 <= CartItem.quantity existing + quantity
              <= availableStock product (Some sel))
        \/ (exists line,
              Forall (fun x => sameCartLine (AddToCartReq.productId req)
                                 (AddToCartReq.variant req) x = false) old
              /\ Cart.items cart' = (old ++ [line])%list
              /\ CartItem.product line = AddToCartReq.productId req
              /\ CartItem.quantity line = quantity
              /\ 1 <= quantity <= availableStock product (AddToCartReq.variant req)
              /\ CartItem.price line
                 = regularPrice product (AddToCartReq.variant req)
              /\ CartItem.total line
                 = (CartItem.price line * inject_Z quantity)%Q))
    /\ (AddToCartReq.variant req = None ->
        exists line, Cart.items cart' = (old ++ [line])%list).
Proof.
  unfold addToCart, cartOfUser.
  destruct (ps !! AddToCartReq.productId req) as [product|] eqn:Hp; [|discriminate].
  destruct (negb (Product.isActive product)) eqn:Hact; [discriminate|].
  apply negb_false_iff in Hact.
  destruct (resolveAddToCart product (AddToCartReq.variant req))
    as [e'|[[a v] s]] eqn:Hres; [discriminate|].
  apply resolveAddToCart_ok in Hres as [-> ->].
  destruct (_ <? default 1 (AddToCartReq.quantity req)) eqn:Hq; [discriminate|].
  apply Z.ltb_ge in Hq.
  set (created := match carts !! user env with
                  | Some cart => (carts, cart)
                  | None =>
                      (<[user env := {| Cart.items := []; Cart.coupon := None |}]>
                         carts,
                       {| Cart.items := []; Cart.coupon := None |})
                  end).
  assert (Hcreated :
            created.2 = default {| Cart.items := []; Cart.coupon := None |}
                          (carts !! user env)
            /\ forall c, <[user env := c]> created.1 = <[user env := c]> carts).
  { unfold created. destruct (carts !! user env) as [cart|]; simpl.
    - split; [reflexivity|]. reflexivity.
    - split; [reflexivity|]. intros c. apply insert_insert_eq. }
  destruct created as [carts1 cart]. simpl in Hcreated.
  destruct Hcreated as [-> Hins].
  set (cart := default {| Cart.items := []; Cart.coupon := None |}
                 (carts !! user env)) in *.
  destruct (findIndex _ (Cart.items cart)) as [i|] eqn:Hidx.
  - apply findIndex_Some in Hidx as (existing & Hi & Hmatch & Hfirst).
    rewrite Hi.
    destruct (_ <? CartItem.quantity existing + _) eqn:Hq2; [discriminate|].
    apply Z.ltb_ge in Hq2.
    destruct (cartItemValid _) eqn:Hvalid; [|discriminate].
    intros [= <- <-]. exists product.
    split; [reflexivity|]. split; [exact Hact|]. split; [apply Hins|].
    split; [reflexivity|].
    apply sameCartLine_true in Hmatch as (sel & Hsel & Hprod & Hsku).
    split.
    + left. exists i, existing, sel.
      split; [exact Hsel|]. split; [exact Hi|]. split; [exact Hprod|].
      split; [exact Hsku|].
      split; [intros j x Hj Hx; rewrite <- Hsel; eapply Hfirst; eauto|].
      split; [reflexivity|].
      unfold cartItemValid in Hvalid. cbn [CartItem.set_quantity CartItem.quantity] in Hvalid.
      apply andb_true_iff in Hvalid as [Hvalid _].
      apply andb_true_iff in Hvalid as [Hvalid _].
      apply Z.leb_le in Hvalid. rewrite <- Hsel. lia.
    + intros Hnone. congruence.
  - apply findIndex_None in Hidx.
    destruct (cartItemValid _) eqn:Hvalid; [|discriminate].
    intros [= <- <-]. exists product.
    split; [reflexivity|]. split; [exact Hact|]. split; [apply Hins|].
    split; [reflexivity|].
    split.
    + right. eexists. split; [exact Hidx|]. split; [reflexivity|].
      unfold cartItemValid in Hvalid. cbn [CartItem.quantity] in Hvalid.
      apply andb_true_iff in Hvalid as [Hvalid _].
      apply andb_true_iff in Hvalid as [Hvalid _].
      apply Z.leb_le in Hvalid.
      repeat split; try reflexivity; lia.
    + intros _. eexists. reflexivity.
Qed.

Lemma addToCart_success_witness :
  exists carts' cart' existing,
    addToCart Sample.env
      {| AddToCartReq.productId := "p7"; AddToCartReq.quantity := Some 2;
         AddToCartReq.variant := Some (Sample.sel "POLO-S") |}
      Sample.catalog
      (Sample.cartOf
         [ Sample.cartItem "p7" 1 None;
           Sample.cartItem "p7" 1 (Some (Sample.sel "POLO-S")) ])
    = (carts', inr cart')
    /\ Cart.items cart'
       = [ Sample.cartItem "p7" 1 None;
           CartItem.set_quantity 3 existing ]
    /\ CartItem.variant existing = Some (Sample.sel "POLO-S").
Proof.
  eassert (Hrun : addToCart Sample.env
                    {| AddToCartReq.productId := "p7";
                       AddToCartReq.quantity := Some 2;
                       AddToCartReq.variant := Some (Sample.sel "POLO-S") |}
                    Sample.catalog
                    (Sample.cartOf
                       [ Sample.cartItem "p7" 1 None;
                         Sample.cartItem "p7" 1 (Some (Sample.sel "POLO-S")) ])
                  = (_, inr _)) by (vm_compute; reflexivity).
  destruct (addToCart_success Sample.env _ Sample.catalog _ _ _ Hrun)
    as (product & _ & _ & _ & _ & Hcases & _).
  destruct Hcases
    as [(i & existing & sel & _ & Hi & _ & Hsku & _ & Hitems & _)
       | (line & Hnone & _)].
  - destruct i as [|[|i]]; try discriminate Hi.
    + injection Hi as <-. discriminate Hsku.
    + injection Hi as <-.
      eexists _, _, _. split; [exact Hrun|].
      split; [exact Hitems | reflexivity].
  - inversion Hnone as [|x l _ Hrest]. inversion Hrest as [|y l' Hy _].
    vm_compute in Hy. discriminate Hy.
Defined.

(** ** Updating and emptying the cart *)

Lemma resolveUpdateStock_eq (product : Product.t) (cartItem : CartItem.t) :
  resolveUpdateStock product cartItem
  = availableStock product (CartItem.variant cartItem).
Proof.
  unfold resolveUpdateStock, availableStock.
  destruct (CartItem.variant cartItem) as [sel|]; [|reflexivity].
  destruct (0 <? Z.of_nat (length (Product.variants product))) eqn:Hn;
    [reflexivity|].
  rewrite (findVariant_no_variants _ _ Hn). reflexivity.
Qed.

(** X17: updating a line to a quantity below 1 is removing it: for a line
    of a present, active product whose available stock is not negative,
    [updateCartItem] with a quantity of 0 or less stores the cart
    collection that [removeFromCart] stores and answers, like it, with the
    cart without that line. (The message texts of the two responses, which
    are not modelled, differ.) *)
Theorem updateCartItem_zero_removes (env : Env) (itemId : nat) (quantity : Z)
    (ps : gmap string Product.t) (carts : gmap string Cart.t)
    (cart : Cart.t) (cartItem : CartItem.t) (product : Product.t) :
  carts !! user env = Some cart ->
  Cart.items cart !! itemId = Some cartItem ->
  ps !! CartItem.product cartItem = Some product ->
  Product.isActive product = true ->
  0 <= availableStock product (CartItem.variant cartItem) ->
  quantity < 1 ->
  updateCartItem env itemId quantity ps carts = removeFromCart env itemId carts.
Proof.
  intros Hcart Hitem Hp Hact Hstock Hq.
  unfold updateCartItem, removeFromCart.
  rewrite Hcart, Hitem, Hp, Hact, resolveUpdateStock_eq. simpl negb. cbv iota.
  replace (availableStock product (CartItem.variant cartItem) <? quantity)
    with false by (symmetry; apply Z.ltb_ge; lia).
  replace (quantity <? 1) with true by (symmetry; apply Z.ltb_lt; lia).
  reflexivity.
Qed.

Lemma updateCartItem_zero_removes_witness :
  updateCartItem Sample.env 0 0 Sample.catalog
    (Sample.cartOf [Sample.cartItem "p1" 2 None; Sample.cartItem "p2" 1 None])
  = removeFromCart Sample.env 0
      (Sample.cartOf [Sample.cartItem "p1" 2 None; Sample.cartItem "p2" 1 None]).
Proof.
  apply (updateCartItem_zero_removes Sample.env 0 0 Sample.catalog _
           {| Cart.items := [Sample.cartItem "p1" 2 None; Sample.cartItem "p2" 1 None];
              Cart.coupon := None |}
           (Sample.cartItem "p1" 2 None) Sample.widget);
    try reflexivity; simpl; lia.
Defined.

(** X18: what [updateCartItem] does to an addressed line of a present,
    active product. Above the available stock it refuses and changes
    nothing; from 1 up to the available stock it stores the quantity and
    re-totals the line with the price already stored on it (the catalog
    price is not read), leaving every other line and the coupon alone. *)
Theorem updateCartItem_in_range (env : Env) (itemId : nat) (quantity : Z)
    (ps : gmap string Product.t) (carts : gmap string Cart.t)
    (cart : Cart.t) (cartItem : CartItem.t) (product : Product.t) :
  carts !! user env = Some cart ->
  Cart.items cart !! itemId = Some cartItem ->
  ps !! CartItem.product cartItem = Some product ->
  Product.isActive product = true ->
  let available := availableStock product (CartItem.variant cartItem) in
  (available < quantity ->
   updateCartItem env itemId quantity ps carts = (carts, inl (OnlyInStock available)))
  /\ (1 <= quantity <= available ->
      exists cart' item',
        updateCartItem env itemId quantity ps carts
        = (<[user env := cart']> carts, inr cart')
        /\ Cart.coupon cart' = Cart.coupon cart
        /\ Cart.items cart' = <[itemId := item']> (Cart.items cart)
        /\ CartItem.product item' = CartItem.product cartItem
        /\ CartItem.variant item' = CartItem.variant cartItem
        /\ CartItem.quantity item' = quantity
        /\ CartItem.price item' = CartItem.price cartItem
        /\ CartItem.total item' = (CartItem.price cartItem * inject_Z quantity)%Q).
Proof.
  intros Hcart Hitem Hp Hact available. split.
  - intros Hq. unfold updateCartItem.
    rewrite Hcart, Hitem, Hp, Hact, resolveUpdateStock_eq. simpl negb. cbv iota.
    fold available.
    replace (available <? quantity) with true by (symmetry; apply Z.ltb_lt; lia).
    reflexivity.
  - intros [Hq1 Hq2]. unfold updateCartItem.
    rewrite Hcart, Hitem, Hp, Hact, resolveUpdateStock_eq. simpl negb. cbv iota.
    fold available.
    replace (available <? quantity) with false by (symmetry; apply Z.ltb_ge; lia).
    replace (quantity <? 1) with false by (symmetry; apply Z.ltb_ge; lia).
    eexists _, _. split; [reflexivity|]. repeat split.
Qed.

Lemma updateCartItem_in_range_witness :
  updateCartItem Sample.env 0 9 Sample.catalog
    (Sample.cartOf [Sample.cartItem "p2" 1 None])
  = (Sample.cartOf [Sample.cartItem "p2" 1 None], inl (OnlyInStock 2)).
Proof.
  refine (proj1 (updateCartItem_in_range Sample.env 0 9 Sample.catalog
                   (Sample.cartOf [Sample.cartItem "p2" 1 None])
                   {| Cart.items := [Sample.cartItem "p2" 1 None];
                      Cart.coupon := None |}
                   (Sample.cartItem "p2" 1 None) Sample.gadget _ _ _ _) _);
    reflexivity.
Defined.

(** X19: when the product of the addressed line is gone or inactive,
    [updateCartItem] answers with a failure (status 400) and all the same
    stores the cart without that line, whatever the quantity asked for. *)
Theorem updateCartItem_product_gone (env : Env) (itemId : nat) (quantity : Z)
    (ps : gmap string Product.t) (carts : gmap string Cart.t)
    (cart : Cart.t) (cartItem : CartItem.t) :
  carts !! user env = Some cart ->
  Cart.items cart !! itemId = Some cartItem ->
  (ps !! CartItem.product cartItem = None
   \/ exists product, ps !! CartItem.product cartItem = Some product
                      /\ Product.isActive product = false) ->
  updateCartItem env itemId quantity ps carts
  = (<[user env := set_items (delete itemId (Cart.items cart)) cart]> carts,
     inl ProductNoLongerAvailable)
  /\ cart_status ProductNoLongerAvailable = 400
  /\ length (delete itemId (Cart.items cart)) = Nat.pred (length (Cart.items cart)).
Proof.
  intros Hcart Hitem Hgone. split; [|split; [reflexivity|]].
  - unfold updateCartItem. rewrite Hcart, Hitem.
    destruct Hgone as [-> | (product & -> & ->)]; reflexivity.
  - rewrite length_delete by (eexists; eauto). lia.
Qed.

Lemma updateCartItem_product_gone_witness :
  exists carts' cart',
    updateCartItem Sample.env 0 1 Sample.catalog
      (Sample.cartOf [Sample.cartItem "gone" 1 None])
    = (carts', inl ProductNoLongerAvailable)
    /\ carts' !! "u1" = Some cart'
    /\ Cart.items cart' = [].
Proof.
  destruct (updateCartItem_product_gone Sample.env 0 1 Sample.catalog
              (Sample.cartOf [Sample.cartItem "gone" 1 None])
              {| Cart.items := [Sample.cartItem "gone" 1 None]; Cart.coupon := None |}
              (Sample.cartItem "gone" 1 None)) as (Hrun & _ & _).
  - reflexivity.
  - reflexivity.
  - left. vm_compute. reflexivity.
  - eexists _, _. split; [exact Hrun|].
    split; [apply lookup_insert_eq | reflexivity].
Defined.

(** X20: [clearCart] empties the lines only: the coupon applied to the cart
    stays on it (the model's own [clear] method, which also drops the
    coupon, does the same only for a cart without a coupon), and a
    [getCart] that follows shows no items and a total of 10. *)
Theorem clearCart_keeps_coupon (env : Env) (ps : gmap string Product.t)
    (carts : gmap string Cart.t) (cart : Cart.t) :
  carts !! user env = Some cart ->
  exists cart',
    clearCart env carts = (<[user env := cart']> carts, inr cart')
    /\ Cart.items cart' = []
    /\ Cart.coupon cart' = Cart.coupon cart
    /\ (cart' = CartVirtuals.clear cart <-> Cart.coupon cart = None)
    /\ exists summary,
         getCart env ps (<[user env := cart']> carts)
         = (<[user env := cart']> carts, ([], summary))
         /\ (Summary.total summary == 10)%Q.
Proof.
  intros Hcart. unfold clearCart. rewrite Hcart.
  eexists. split; [reflexivity|]. split; [reflexivity|]. split; [reflexivity|].
  split.
  - unfold CartVirtuals.clear, set_items. split.
    + intros [= H]. exact H.
    + intros ->. reflexivity.
  - unfold getCart. rewrite lookup_insert_eq. simpl.
    rewrite insert_insert_eq. eexists. split; [reflexivity|]. reflexivity.
Qed.

Lemma clearCart_keeps_coupon_witness :
  exists carts' cart',
    (applyCoupon Sample.env "SAVE" Sample.catalog
       (Sample.cartOf [Sample.cartItem "p1" 1 None])).1 = carts'
    /\ (clearCart Sample.env carts').2 = inr cart'
    /\ Cart.items cart' = []
    /\ CouponSnapshot.code <$> Cart.coupon cart' = Some "SAVE".
Proof.
  eassert (Hcart : (applyCoupon Sample.env "SAVE" Sample.catalog
                      (Sample.cartOf [Sample.cartItem "p1" 1 None])).1 !! "u1"
                   = Some _) by (vm_compute; reflexivity).
  destruct (clearCart_keeps_coupon Sample.env Sample.catalog _ _ Hcart)
    as (cart' & Hrun & Hitems & Hcoupon & _).
  eexists _, cart'. split; [reflexivity|].
  split; [rewrite Hrun; reflexivity|]. split; [exact Hitems|].
  rewrite Hcoupon. reflexivity.
Defined.

(** X21: applying a coupon to a cart that has none and removing it again
    gives back the cart collection as it was; the lines are never touched
    by either handler. *)
Theorem applyCoupon_removeCoupon (env : Env) (couponCode : string)
    (ps : gmap string Product.t) (carts : gmap string Cart.t) (cart : Cart.t) :
  carts !! user env = Some cart ->
  Cart.coupon cart = None ->
  exists applied cart',
    applyCoupon env couponCode ps carts
    = (<[user env := cart']> carts, inr applied)
    /\ Cart.items cart' = Cart.items cart
    /\ removeCoupon env (<[user env := cart']> carts) = (carts, inr cart).
Proof.
  intros Hcart Hnone. unfold applyCoupon, removeCoupon. rewrite Hcart.
  eexists _, _. split; [reflexivity|]. split; [reflexivity|].
  rewrite lookup_insert_eq, insert_insert_eq.
  assert (Hback : set_coupon None
                    (set_coupon
                       (Some {| CouponSnapshot.code := couponCode;
                                CouponSnapshot.discount :=
                                  (couponSubtotal ps (Cart.items cart) * (1 # 10))%Q |})
                       cart) = cart).
  { destruct cart as [items coupon]. simpl in Hnone. subst coupon. reflexivity. }
  rewrite Hback, (insert_id _ _ _ Hcart). reflexivity.
Qed.

Lemma applyCoupon_removeCoupon_witness :
  (removeCoupon Sample.env
     (applyCoupon Sample.env "SAVE" Sample.catalog
        (Sample.cartOf [Sample.cartItem "p1" 1 None])).1).1
  = Sample.cartOf [Sample.cartItem "p1" 1 None].
Proof.
  destruct (applyCoupon_removeCoupon Sample.env "SAVE" Sample.catalog
              (Sample.cartOf [Sample.cartItem "p1" 1 None])
              {| Cart.items := [Sample.cartItem "p1" 1 None]; Cart.coupon := None |})
    as (applied & cart' & Happly & _ & Hremove).
  - reflexivity.
  - reflexivity.
  - rewrite Happly. cbn [fst]. rewrite Hremove. reflexivity.
Defined.

Lemma couponSubtotal_nonneg (ps : gmap string Product.t) (items : list CartItem.t) :
  Forall (fun item => (0 <= CartItem.total item)%Q) items ->
  (0 <= couponSubtotal ps items)%Q.
Proof.
  unfold couponSubtotal. intros Hall.
  assert (Hgen : forall start, (0 <= start)%Q ->
            (0 <= fold_left
                    (fun subtotal item =>
                       match ps !! CartItem.product item with
                       | Some product =>
                           if Product.isActive product
                           then (subtotal + CartItem.total item)%Q else subtotal
                       | None => subtotal
                       end) items start)%Q).
  { induction Hall as [|item items Hitem Hitems IH]; intros start Hstart; simpl;
      [exact Hstart|].
    apply IH. destruct (ps !! CartItem.product item) as [product|]; [|exact Hstart].
    destruct (Product.isActive product); [|exact Hstart].
    apply Qle_trans with (0 + 0)%Q; [discriminate|].
    apply Qplus_le_compat; assumption. }
  apply Hgen. discriminate.
Qed.

(** X22: [applyCoupon] looks no coupon up: on a cart whose stored totals
    are not negative, any code at all is accepted and stored with a discount
    of a tenth of the subtotal of the lines with a present, active product;
    the discount lies between 0 and that subtotal and the new total answered
    is not negative. Without a cart the answer is CartNotFound and nothing
    is stored. *)
Theorem applyCoupon_any_code (env : Env) (couponCode : string)
    (ps : gmap string Product.t) (carts : gmap string Cart.t) :
  (carts !! user env = None ->
   applyCoupon env couponCode ps carts = (carts, inl CartNotFound))
  /\ (forall cart,
        carts !! user env = Some cart ->
        Forall (fun item => (0 <= CartItem.total item)%Q) (Cart.items cart) ->
        exists carts' applied cart',
          applyCoupon env couponCode ps carts = (carts', inr applied)
          /\ carts' !! user env = Some cart'
          /\ Cart.coupon cart'
             = Some {| CouponSnapshot.code := couponCode;
                       CouponSnapshot.discount := CouponApplied.discount applied |}
          /\ CouponApplied.discount applied
             = (couponSubtotal ps (Cart.items cart) * (1 # 10))%Q
          /\ (0 <= CouponApplied.discount applied)%Q
          /\ (CouponApplied.discount applied
              <= couponSubtotal ps (Cart.items cart))%Q
          /\ (0 <= CouponApplied.newTotal applied)%Q).
Proof.
  split.
  - intros Hnone. unfold applyCoupon. rewrite Hnone. reflexivity.
  - intros cart Hcart Hall. unfold applyCoupon. rewrite Hcart.
    pose proof (couponSubtotal_nonneg ps (Cart.items cart) Hall) as Hs.
    eexists _, _, _. split; [reflexivity|].
    split; [apply lookup_insert_eq|]. split; [reflexivity|].
    split; [reflexivity|]. simpl. repeat split; lra.
Qed.

Lemma applyCoupon_any_code_witness :
  exists carts' applied,
    applyCoupon Sample.env "NO-SUCH-COUPON" Sample.catalog
      (Sample.cartOf
         [ {| CartItem.product := "p1"; CartItem.quantity := 1;
              CartItem.variant := None; CartItem.price := 100;
              CartItem.total := 100; CartItem.inStock := true |} ])
    = (carts', inr applied)
    /\ (CouponApplied.discount applied == 10)%Q.
Proof.
  destruct (proj2 (applyCoupon_any_code Sample.env "NO-SUCH-COUPON" Sample.catalog
                     (Sample.cartOf
                        [ {| CartItem.product := "p1"; CartItem.quantity := 1;
                             CartItem.variant := None; CartItem.price := 100;
                             CartItem.total := 100; CartItem.inStock := true |} ]))
              _ eq_refl)
    as (carts' & applied & cart' & Hrun & _ & _ & Hd & _).
  - repeat constructor. simpl. discriminate.
  - exists carts', applied. split; [exact Hrun|]. rewrite Hd.
    vm_compute. reflexivity.
Defined.

(** ** More on coupons *)

(** X23: the public listing misses no redeemable coupon: a coupon of the
    collection that is active now (and whose usedCount is not negative) is
    in the listing of [getActiveCoupons]. *)
Theorem redeemable_is_listed (now : Date) (coupons : list Coupon.t) (c : Coupon.t) :
  In c coupons ->
  0 <= Coupon.usedCount c ->
  Coupon.isActiveNow now c = true ->
  In (CouponView.of_coupon c) (getActiveCoupons now coupons).
Proof.
  intros Hin Hused Hact. unfold getActiveCoupons.
  apply in_map, filter_In. split; [exact Hin|].
  unfold Coupon.isActiveNow in Hact. unfold activeCouponQuery.
  rewrite !andb_true_iff in Hact. destruct Hact as [[[Ha Hs] He] Hu].
  rewrite Ha, Hs, He. simpl.
  destruct (Coupon.usageLimit c) as [l|]; [|reflexivity].
  apply Z.ltb_lt in Hu. apply Z.ltb_lt. lia.
Qed.

Lemma redeemable_is_listed_witness :
  In (CouponView.of_coupon Sample.capped)
     (getActiveCoupons 50 [Sample.exhausted; Sample.capped]).
Proof.
  apply (redeemable_is_listed 50 [Sample.exhausted; Sample.capped] Sample.capped).
  - right; left; reflexivity.
  - simpl; lia.
  - reflexivity.
Defined.

(** What [validateCoupon] found when it answers with a discount. *)
Lemma validateCoupon_inv (toUpperCase : string -> string) (now : Date)
    (coupons : list Coupon.t) (code : string) (totalAmount : Q)
    (r : CouponValidated.t) :
  validateCoupon toUpperCase now coupons code totalAmount = inr r ->
  exists c,
    In c coupons
    /\ Coupon.code c = toUpperCase code
    /\ Coupon.isActiveNow now c = true
    /\ (Coupon.minPurchase c <= totalAmount)%Q
    /\ CouponValidated.coupon r = CouponView.of_coupon c
    /\ Coupon.calculateDiscount now c totalAmount = inr (CouponValidated.discount r)
    /\ CouponValidated.newTotal r = (totalAmount - CouponValidated.discount r)%Q.
Proof.
  unfold validateCoupon.
  destruct (List.find _ coupons) as [c|] eqn:Hfind; [|discriminate].
  apply List.find_some in Hfind as [Hin Hmatch].
  apply andb_true_iff in Hmatch as [Hcode _]. apply String.eqb_eq in Hcode.
  destruct (negb (Coupon.isValid now c)) eqn:Hvalid; [discriminate|].
  apply negb_false_iff in Hvalid.
  destruct (Qltb totalAmount (Coupon.minPurchase c)) eqn:Hmin; [discriminate|].
  apply Qltb_ge in Hmin.
  destruct (Coupon.calculateDiscount now c totalAmount) as [e|d] eqn:Hcalc;
    [discriminate|].
  intros [= <-]. exists c. repeat split; assumption.
Qed.

(** X24: [validateCoupon] never reaches its catch block through
    [calculateDiscount]: its own checks (coupon found, valid now, minimum
    purchase met) are the checks [calculateDiscount] makes. When it answers
    with a discount, the coupon is one of the collection with the
    upper-cased code, active now, and for every coupon whatsoever the
    discount is at most totalAmount, so the new total
    totalAmount - discount is not negative. *)
Theorem validateCoupon_sound (toUpperCase : string -> string) (now : Date)
    (coupons : list Coupon.t) (code : string) (totalAmount : Q) :
  match validateCoupon toUpperCase now coupons code totalAmount with
  | inl (Thrown _) => False
  | inl _ => True
  | inr r =>
      (exists c,
         In c coupons /\ Coupon.code c = toUpperCase code
         /\ Coupon.isActiveNow now c = true
         /\ CouponValidated.coupon r = CouponView.of_coupon c
         /\ Coupon.calculateDiscount now c totalAmount
            = inr (CouponValidated.discount r))
      /\ (CouponValidated.discount r <= totalAmount)%Q
      /\ (0 <= CouponValidated.newTotal r)%Q
  end.
Proof.
  destruct (validateCoupon toUpperCase now coupons code totalAmount) as [e|r] eqn:H.
  - destruct e; try exact I. revert H. unfold validateCoupon.
    destruct (List.find _ coupons) as [c|]; [|discriminate].
    destruct (negb (Coupon.isValid now c)) eqn:Hvalid; [discriminate|].
    destruct (Qltb totalAmount (Coupon.minPurchase c)) eqn:Hmin; [discriminate|].
    unfold Coupon.calculateDiscount. rewrite Hmin, Hvalid. discriminate.
  - apply validateCoupon_inv in H as (c & Hin & Hcode & Hact & _ & Hview & Hcalc & Hnew).
    pose proof (calculateDiscount_le_total now c _ _ Hcalc) as Hle.
    split; [exists c; auto|]. split; [exact Hle|]. rewrite Hnew. lra.
Qed.

Lemma find_and {A : Type} (f g : A -> bool) (l : list A) (x : A) :
  List.find f l = Some x -> g x = true ->
  List.find (fun y => f y && g y) l = Some x.
Proof.
  induction l as [|y l IH]; simpl; [discriminate|].
  destruct (f y) eqn:Hf.
  - intros [= ->] Hg. rewrite Hg. reflexivity.
  - intros Hfind Hg. simpl. apply IH; assumption.
Qed.

(** X25: a coupon that [getCouponByCode] returns can be validated: for the
    same code and any totalAmount that meets the coupon's minimum purchase,
    [validateCoupon] answers with a discount for that very coupon. *)
Theorem getCouponByCode_then_validate (toUpperCase : string -> string)
    (now : Date) (coupons : list Coupon.t) (code : string) (c : Coupon.t)
    (totalAmount : Q) :
  getCouponByCode toUpperCase now coupons code = inr c ->
  (Coupon.minPurchase c <= totalAmount)%Q ->
  exists r,
    validateCoupon toUpperCase now coupons code totalAmount = inr r
    /\ CouponValidated.coupon r = CouponView.of_coupon c
    /\ Coupon.calculateDiscount now c totalAmount = inr (CouponValidated.discount r).
Proof.
  unfold getCouponByCode. intros H Hmin.
  destruct (List.find _ coupons) as [c'|] eqn:Hfind; [|discriminate].
  destruct (negb (Coupon.isActiveNow now c')) eqn:Hact; [discriminate|].
  injection H as ->. apply negb_false_iff in Hact.
  assert (Hisact : Bool.eqb (Coupon.isActive c) true = true).
  { unfold Coupon.isActiveNow in Hact. rewrite !andb_true_iff in Hact.
    destruct Hact as [[[-> _] _] _]. reflexivity. }
  unfold validateCoupon.
  rewrite (find_and _ (fun c => Bool.eqb (Coupon.isActive c) true) _ _ Hfind Hisact).
  unfold Coupon.isValid. rewrite Hact. simpl.
  apply Qltb_ge in Hmin. rewrite Hmin.
  unfold Coupon.calculateDiscount, Coupon.isValid. rewrite Hmin, Hact. simpl.
  eexists. split; [reflexivity|]. split; reflexivity.
Qed.

Lemma getCouponByCode_then_validate_witness :
  exists r,
    validateCoupon (fun s => s) 50 [Sample.exhausted; Sample.capped] "SAVE" 200
    = inr r
    /\ (CouponValidated.discount r == 30)%Q.
Proof.
  destruct (getCouponByCode_then_validate (fun s => s) 50
              [Sample.exhausted; Sample.capped] "SAVE" Sample.capped 200)
    as (r & Hrun & _ & Hcalc).
  - reflexivity.
  - vm_compute. discriminate.
  - exists r. split; [exact Hrun|].
    assert (Hc : Coupon.calculateDiscount 50 Sample.capped 200 = inr 30%Q)
      by reflexivity.
    rewrite Hc in Hcalc. injection Hcalc as <-. reflexivity.
Defined.

Lemma incrementUsage_iter (n : nat) (c : Coupon.t) :
  Coupon.usedCount (Nat.iter n Coupon.incrementUsage c)
  = Coupon.usedCount c + Z.of_nat n
  /\ Coupon.usageLimit (Nat.iter n Coupon.incrementUsage c) = Coupon.usageLimit c
  /\ Coupon.isActive (Nat.iter n Coupon.incrementUsage c) = Coupon.isActive c
  /\ Coupon.startDate (Nat.iter n Coupon.incrementUsage c) = Coupon.startDate c
  /\ Coupon.endDate (Nat.iter n Coupon.incrementUsage c) = Coupon.endDate c.
Proof.
  induction n as [|n (IH1 & IH2 & IH3 & IH4 & IH5)].
  - simpl. repeat split. lia.
  - rewrite Nat2Z.inj_succ. simpl. rewrite IH1. repeat split; try assumption. lia.
Qed.

(** X26: redemptions only wear a coupon out. After any number of
    [incrementUsage] calls a coupon is active now only if it was before;
    once usedCount has reached a set usageLimit it is inactive at every
    time and stays so; a coupon without a usageLimit is not affected. *)
Theorem incrementUsage_wears_out (now : Date) (n : nat) (c : Coupon.t) :
  let c' := Nat.iter n Coupon.incrementUsage c in
  (Coupon.isActiveNow now c' = true -> Coupon.isActiveNow now c = true)
  /\ (forall l, Coupon.usageLimit c = Some l ->
        l <= Coupon.usedCount c + Z.of_nat n ->
        Coupon.isActiveNow now c' = false)
  /\ (Coupon.usageLimit c = None ->
      Coupon.isActiveNow now c' = Coupon.isActiveNow now c).
Proof.
  intros c'.
  destruct (incrementUsage_iter n c) as (Hu & Hl & Ha & Hs & He). fold c' in Hu, Hl, Ha, Hs, He.
  unfold Coupon.isActiveNow. rewrite Hu, Hl, Ha, Hs, He.
  split; [|split].
  - destruct (Coupon.usageLimit c) as [l|]; [|auto].
    rewrite !andb_true_iff. intros [H1 H2]. split; [exact H1|].
    apply Z.ltb_lt in H2. apply Z.ltb_lt. lia.
  - intros l -> Hle.
    replace (Coupon.usedCount c + Z.of_nat n <? l) with false
      by (symmetry; apply Z.ltb_ge; lia).
    apply andb_false_r.
  - intros ->. reflexivity.
Qed.

(** ** The stock handler *)

(** X27: [updateStock] never stores a negative stock. A failure (unknown
    product, or an add or set that would go below zero, which [save]
    rejects) leaves the collection as it was; a success changes nothing but
    the product-level stock of that product, which is then not negative.
    A subtract on a product with a stock that is not negative always
    succeeds, bottoming out at 0, and an unknown operation succeeds without
    changing the stock. *)
Theorem updateStock_sound (id : string) (quantity : Z) (operation : option string)
    (ps : gmap string Product.t) :
  match updateStock id quantity operation ps with
  | (ps', inl _) => ps' = ps
  | (ps', inr p') =>
      exists p,
        ps !! id = Some p
        /\ ps' = <[id := p']> ps
        /\ 0 <= Product.stock p'
        /\ p' = Product.set_stock (Product.stock p') p
        /\ (operation = Some "subtract" ->
            Product.stock p' = Z.max 0 (Product.stock p - quantity))
        /\ (default "add" operation <> "add" ->
            default "add" operation <> "subtract" ->
            default "add" operation <> "set" ->
            Product.stock p' = Product.stock p)
  end
  /\ (forall p, ps !! id = Some p -> 0 <= Product.stock p ->
        operation = Some "subtract" ->
        exists p', (updateStock id quantity operation ps).2 = inr p').
Proof.
  unfold updateStock. split.
  - destruct (ps !! id) as [p|] eqn:Hp; [|reflexivity].
    set (stock := if String.eqb (default "add" operation) "add" then _ else _).
    cbn [Product.stock Product.set_stock].
    destruct (stock <? 0) eqn:Hneg; [reflexivity|].
    apply Z.ltb_ge in Hneg.
    exists p. split; [reflexivity|]. split; [reflexivity|].
    split; [exact Hneg|]. split; [reflexivity|]. split.
    + intros ->. subst stock. simpl.
      destruct (Product.stock p - quantity <? 0) eqn:E;
        [apply Z.ltb_lt in E | apply Z.ltb_ge in E]; lia.
    + intros H1 H2 H3. subst stock.
      apply String.eqb_neq in H1, H2, H3. rewrite H1, H2, H3. reflexivity.
  - intros p Hp Hs ->. rewrite Hp. simpl.
    destruct (Product.stock p - quantity <? 0) eqn:E; simpl.
    + eexists. reflexivity.
    + apply Z.ltb_ge in E.
      replace (Product.stock p - quantity <? 0) with false
        by (symmetry; apply Z.ltb_ge; lia).
      eexists. reflexivity.
Qed.

(** ** Helpers *)

Lemma Math_round_bounds (q : Q) (lo hi : Z) :
  (inject_Z lo <= q)%Q -> (q <= inject_Z hi)%Q -> lo <= Math_round q <= hi.
Proof.
  intros Hlo Hhi. unfold Math_round. split.
  - rewrite <- (Qfloor_Z lo). apply Qfloor_resp_le. lra.
  - assert (H : Qfloor (q + (1 # 2)) <= Qfloor (inject_Z hi + (1 # 2)))
      by (apply Qfloor_resp_le; lra).
    assert (Hh : Qfloor (inject_Z hi + (1 # 2)) = hi).
    { apply Z.le_antisymm.
      - apply Z.lt_succ_r. rewrite Zlt_Qlt.
        eapply Qle_lt_trans; [apply Qfloor_le|].
        unfold Z.succ. rewrite inject_Z_plus.
        change (inject_Z 1) with 1%Q. lra.
      - rewrite <- (Qfloor_Z hi) at 1. apply Qfloor_resp_le. lra. }
    lia.
Qed.

(** X28: for prices that are not negative, [calculateDiscountPercentage]
    is a whole percentage between 0 and 100; it is 0 whenever the sale
    price is not below the original price, and also when the sale price
    is 0. *)
Theorem calculateDiscountPercentage_bounds (originalPrice salePrice : Q) :
  (0 <= originalPrice)%Q -> (0 <= salePrice)%Q ->
  0 <= calculateDiscountPercentage originalPrice salePrice <= 100
  /\ ((originalPrice <= salePrice)%Q ->
      calculateDiscountPercentage originalPrice salePrice = 0)
  /\ ((salePrice == 0)%Q ->
      calculateDiscountPercentage originalPrice salePrice = 0).
Proof.
  intros Ho Hs. unfold calculateDiscountPercentage.
  destruct (truthyQ originalPrice) eqn:Hto; simpl;
    [|repeat split; reflexivity || lia].
  destruct (truthyQ salePrice) eqn:Hts; simpl.
  - destruct (Qle_bool originalPrice salePrice) eqn:Hle;
      [repeat split; reflexivity || lia|].
    apply truthyQ_true in Hto, Hts.
    assert (Hlt : (salePrice < originalPrice)%Q).
    { apply Qnot_le_lt. intros H. apply Qle_bool_iff in H. congruence. }
    assert (Hopos : (0 < originalPrice)%Q) by lra.
    split; [|split].
    + apply Math_round_bounds.
      * change (inject_Z 0) with 0%Q.
        apply Qmult_le_0_compat; [|discriminate].
        apply Qle_shift_div_l; [exact Hopos | lra].
      * change (inject_Z 100) with (1 * 100)%Q.
        apply Qmult_le_compat_r; [|discriminate].
        apply Qle_shift_div_r; [exact Hopos | lra].
    + intros H. lra.
    + intros H. contradiction.
  - repeat split; reflexivity || lia.
Qed.

Lemma calculateDiscountPercentage_bounds_witness :
  calculateDiscountPercentage 80 60 = 25
  /\ 0 <= calculateDiscountPercentage 80 60 <= 100.
Proof.
  split; [reflexivity|].
  apply (calculateDiscountPercentage_bounds 80 60); discriminate.
Defined.

(** ** Instances on the sample data *)

Lemma cancelOrder_fails_closed_witness :
  cancelOrder Sample.env "o2" None Sample.placed
  = (Sample.placed, inl OrderNotFound).
Proof.
  apply (proj1 (proj2 (cancelOrder_fails_closed Sample.env "o2" None Sample.placed))).
  vm_compute. reflexivity.
Defined.

Lemma incrementUsage_wears_out_witness :
  Coupon.isActiveNow 50
    (Nat.iter 3 Coupon.incrementUsage
       {| Coupon.code := "THRICE"; Coupon.discountType := fixed;
          Coupon.discountValue := 5; Coupon.minPurchase := 0;
          Coupon.maxDiscount := None; Coupon.startDate := 0;
          Coupon.endDate := 100; Coupon.usageLimit := Some 3;
          Coupon.usedCount := 0; Coupon.isActive := true |})
  = false.
Proof.
  apply (proj1 (proj2 (incrementUsage_wears_out 50 3 _)) 3).
  - reflexivity.
  - simpl. lia.
Defined.

Lemma updateStock_sound_witness :
  exists p',
    (updateStock "p2" 5 (Some "subtract") Sample.catalog).2 = inr p'
    /\ Product.stock p' = 0.
Proof.
  destruct (proj2 (updateStock_sound "p2" 5 (Some "subtract") Sample.catalog)
              Sample.gadget) as [p' Hrun].
  - vm_compute. reflexivity.
  - simpl. lia.
  - reflexivity.
  - exists p'. split; [exact Hrun|].
    vm_compute in Hrun. injection Hrun as <-. reflexivity.
Defined.
